(** * webpack-dashboard: the plugin (plugin/index.js)

    A shallow embedding of [DashboardPlugin]: the build timer label
    ([getTimeMessage]), the constructor, [cleanup], [apply] with the
    callbacks it registers on the compiler, and [getProjectRoot].

    The plugin is stateful JavaScript.  Its state is split the way the
    source splits it: the fields of [this] (record [DashboardPlugin]) and
    the variables local to one call of [apply], captured by the callbacks
    (record [Scope]).  Calls that leave the plugin (the handler, the socket)
    are recorded as a list of [Effect]s.  [Date.now()] is an input of every
    step. *)

From Stdlib Require Import ZArith QArith Qround List Bool Lia.
From Stdlib Require Import Strings.String Strings.Ascii Numbers.DecimalString.
From Stdlib Require Numbers.DecimalFacts Numbers.DecimalPos Numbers.DecimalZ.
Import ListNotations.

Local Open Scope string_scope.
Local Open Scope Z_scope.

(* ================================================================= *)
(** ** JavaScript values *)

Module JS.

#[local] Set Warnings "-register-all".

(** The values the plugin inspects.  Numbers are the integral ones; an
    object carries the name of its constructor ([Object] for a literal)
    and its own properties in insertion order. *)
Inductive Value : Type :=
| Undefined
| Null
| Boolean (b : bool)
| Number (z : Z)
| Str (s : string)
| Object (ctor : string) (props : list (string * Value)).

(** What a JavaScript call can end in.  [Unmodelled] marks an input on which
    this embedding gives no answer (see [JSON_parse]). *)
Inductive Error : Type := TypeError | SyntaxError.

Inductive Completion (A : Type) : Type :=
| Normal (a : A)
| Throw (e : Error)
| Unmodelled.
Arguments Normal {A} a.
Arguments Throw {A} e.
Arguments Unmodelled {A}.

Definition bind {A B} (c : Completion A) (k : A -> Completion B) : Completion B :=
  match c with
  | Normal a => k a
  | Throw e => Throw e
  | Unmodelled => Unmodelled
  end.

Notation "x <- c ;; k" := (bind c (fun x => k))
  (at level 61, c at next level, right associativity).

(** ToBoolean. *)
Definition truthy (v : Value) : bool :=
  match v with
  | Undefined | Null => false
  | Boolean b => b
  | Number z => negb (z =? 0)
  | Str s => negb (String.eqb s "")
  | Object _ _ => true
  end.

(** [a && b] and [a || b] on values. *)
Definition and_ (a b : Value) : Value := if truthy a then b else a.
Definition or_ (a b : Value) : Value := if truthy a then a else b.

Fixpoint assoc (k : string) (props : list (string * Value)) : Value :=
  match props with
  | [] => Undefined
  | (k', v) :: rest => if String.eqb k k' then v else assoc k rest
  end.

(** [v[k]] for a key that no built-in prototype defines (the plugin only
    uses such keys): a primitive has no such property, [undefined] and
    [null] throw. *)
Definition prop (v : Value) (k : string) : Value :=
  match v with
  | Object _ props => assoc k props
  | _ => Undefined
  end.

Definition get (v : Value) (k : string) : Completion Value :=
  match v with
  | Undefined | Null => Throw TypeError
  | _ => Normal (prop v k)
  end.

(** Decimal rendering of an integer, as [String(n)] gives it for an
    integral number below 10^21 in absolute value. *)
Definition string_of_Z (z : Z) : string :=
  NilZero.string_of_int (Z.to_int z).

(** ToString. *)
Definition ToString (v : Value) : string :=
  match v with
  | Undefined => "undefined"
  | Null => "null"
  | Boolean true => "true"
  | Boolean false => "false"
  | Number z => string_of_Z z
  | Str s => s
  | Object _ _ => "[object Object]"
  end.

(** [v.constructor.name] *)
Definition constructor_name (v : Value) : Completion string :=
  match v with
  | Undefined | Null => Throw TypeError
  | Boolean _ => Normal "Boolean"
  | Number _ => Normal "Number"
  | Str _ => Normal "String"
  | Object c _ => Normal c
  end.

(** The one-character string holding a double quote. *)
Definition dquote : string := String (ascii_of_N 34) EmptyString.

(** *** JSON.parse

    The scalar fragment of JSON: [null], [true], [false], integers of at
    most 2^53 in absolute value, and string literals whose escapes are the
    single-character ones.  Texts that begin an array or an object, numbers
    with a fraction or an exponent, [-0] and [\u] escapes are [Unmodelled];
    everything else that is not such a scalar surrounded by JSON white
    space is a [SyntaxError], as in ECMAScript. *)

Definition is_ws (c : ascii) : bool :=
  let n := N_of_ascii c in
  ((n =? 32) || (n =? 9) || (n =? 10) || (n =? 13))%N.

Fixpoint skip_ws (s : string) : string :=
  match s with
  | String c rest => if is_ws c then skip_ws rest else s
  | EmptyString => s
  end.

Definition digit_of (c : ascii) : option Z :=
  let n := N_of_ascii c in
  if ((48 <=? n) && (n <=? 57))%N then Some (Z.of_N n - 48) else None.

Fixpoint scan_digits (acc : Z) (s : string) : Z * string :=
  match s with
  | String c rest =>
      match digit_of c with
      | Some d => scan_digits (10 * acc + d) rest
      | None => (acc, s)
      end
  | EmptyString => (acc, s)
  end.

Fixpoint strip_prefix (p s : string) : option string :=
  match p, s with
  | EmptyString, _ => Some s
  | String a p', String b s' => if Ascii.eqb a b then strip_prefix p' s' else None
  | String _ _, EmptyString => None
  end.

(** The body of a string literal, after its opening quote. *)
Definition unescape (c : ascii) : Completion ascii :=
  match N_of_ascii c with
  | 34%N | 92%N | 47%N => Normal c
  | 98%N => Normal (ascii_of_N 8)
  | 102%N => Normal (ascii_of_N 12)
  | 110%N => Normal (ascii_of_N 10)
  | 114%N => Normal (ascii_of_N 13)
  | 116%N => Normal (ascii_of_N 9)
  | 117%N => Unmodelled
  | _ => Throw SyntaxError
  end.

Fixpoint scan_string (s : string) : Completion (string * string) :=
  match s with
  | EmptyString => Throw SyntaxError
  | String c rest =>
      if (N_of_ascii c =? 34)%N then Normal (EmptyString, rest)
      else if (N_of_ascii c =? 92)%N then
        match rest with
        | EmptyString => Throw SyntaxError
        | String e rest' =>
            x <- unescape e ;;
            r <- scan_string rest' ;;
            Normal (String x (fst r), snd r)
        end
      else if (N_of_ascii c <? 32)%N then Throw SyntaxError
      else
        r <- scan_string rest ;;
        Normal (String c (fst r), snd r)
  end.

(** The digits of a number, after its sign: a lone [0], or a non-zero digit
    and more digits. *)
Definition scan_int (s : string) : Completion (Z * string) :=
  match s with
  | EmptyString => Throw SyntaxError
  | String c rest =>
      match digit_of c with
      | None => Throw SyntaxError
      | Some 0 => Normal (0, rest)
      | Some d => Normal (scan_digits d rest)
      end
  end.

Definition starts_fraction (s : string) : bool :=
  match s with
  | String c _ =>
      let n := N_of_ascii c in ((n =? 46) || (n =? 101) || (n =? 69))%N
  | EmptyString => false
  end.

Definition scan_number (s : string) : Completion (Value * string) :=
  let '(neg, s') :=
    match s with
    | String c rest => if (N_of_ascii c =? 45)%N then (true, rest) else (false, s)
    | EmptyString => (false, s)
    end in
  r <- scan_int s' ;;
  let '(n, rest) := r in
  if starts_fraction rest then Unmodelled
  else if 2 ^ 53 <? n then Unmodelled
  else if neg && (n =? 0) then Unmodelled
  else Normal (Number (if neg then - n else n), rest).

Definition scan_literal (lit : string) (v : Value) (s : string)
  : Completion (Value * string) :=
  match strip_prefix lit s with
  | Some rest => Normal (v, rest)
  | None => Throw SyntaxError
  end.

Definition scan_value (s : string) : Completion (Value * string) :=
  match s with
  | EmptyString => Throw SyntaxError
  | String c rest =>
      match N_of_ascii c with
      | 34%N => r <- scan_string rest ;; Normal (Str (fst r), snd r)
      | 110%N => scan_literal "null" Null s
      | 116%N => scan_literal "true" (Boolean true) s
      | 102%N => scan_literal "false" (Boolean false) s
      | 91%N | 123%N => Unmodelled
      | _ => scan_number s
      end
  end.

(** [JSON.parse(text)] for a string [text]. *)
Definition JSON_parse_text (text : string) : Completion Value :=
  r <- scan_value (skip_ws text) ;;
  match skip_ws (snd r) with
  | EmptyString => Normal (fst r)
  | String _ _ => Throw SyntaxError
  end.

(** [JSON.parse(v)]: the argument is converted to a string first. *)
Definition JSON_parse (v : Value) : Completion Value :=
  JSON_parse_text (ToString v).

(** *** lodash/fp [getOr]

    [_.getOr(dflt)(path)(object)] with an array path: walk the keys while
    the object is neither [undefined] nor [null]; the default replaces an
    [undefined] result only. *)
Fixpoint baseGet (path : list string) (object : Value) : Value :=
  match path with
  | [] => object
  | k :: path' =>
      match object with
      | Undefined | Null => Undefined
      | Object _ props => baseGet path' (assoc k props)
      | _ => baseGet path' Undefined
      end
  end.

Definition getOr (dflt : Value) (path : list string) (object : Value) : Value :=
  match path with
  | [] => dflt
  | _ =>
      match baseGet path object with
      | Undefined => dflt
      | v => v
      end
  end.

(** [Math.round] on a rational: the nearest integer, halves upwards. *)
Definition Math_round (q : Q) : Z := Qfloor (q + (1 # 2)).

End JS.

(* ================================================================= *)
(** ** The timer label *)

Definition ONE_SECOND : Z := 1000.
Definition DEFAULT_PORT : Z := 9838.
Definition DEFAULT_HOST : string := "127.0.0.1".

(** [Date.now() - timer]: [timer] is [undefined] until the first [compile],
    and a number minus [undefined] is [NaN]. *)
Inductive Elapsed : Type :=
| NaN
| Millis (d : Z).

Definition elapsed (now : Z) (timer : option Z) : Elapsed :=
  match timer with
  | Some t => Millis (now - t)
  | None => NaN
  end.

(** The value of the variable [time] when the template is built.
    [NaN >= ONE_SECOND] is false.  The quotient of the source is a double;
    for an integral [d] (a difference of two clock readings) it lies on the
    same side of every half-integer as the exact quotient, which is at
    least a thousandth away from it, so rounding the exact quotient gives
    the same integer. *)
Definition timeText (e : Elapsed) : string :=
  match e with
  | NaN => "NaN" ++ "ms"
  | Millis d =>
      if d >=? ONE_SECOND
      then JS.string_of_Z (JS.Math_round (inject_Z d / inject_Z ONE_SECOND)) ++ "s"
      else JS.string_of_Z d ++ "ms"
  end.

Definition getTimeMessage (now : Z) (timer : option Z) : string :=
  " (" ++ timeText (elapsed now timer) ++ ")".

(* ================================================================= *)
(** ** Messages *)

(** The [value] of a message entry. *)
Inductive Payload : Type :=
| NoValue                       (* the entry has no [value] property *)
| Text (s : string)
| Num (q : Q)
| Js (v : JS.Value)
| StatsValue (errors warnings : bool) (data : JS.Value).

Record Entry : Type := { type : string; value : Payload }.

Definition Batch : Type := list Entry.

(** The stats object the bundler passes to [done], with the results of the
    methods the plugin calls on it. *)
Record CompilationOptions : Type := { devServer : JS.Value; stats : JS.Value }.

Record Stats : Type := {
  options : CompilationOptions;         (* stats.compilation.options *)
  hasErrors : bool;
  hasWarnings : bool;
  toJson : JS.Value;
  toString : JS.Value -> string
}.

(* ================================================================= *)
(** ** The plugin object *)

(** A function supplied by the caller. *)
Inductive Fn : Type := UserFunction (id : nat).

(** The socket.io client, as far as the plugin drives it: where it points,
    whether [close()] was called on it, whether the [once] listener for
    [mode] is still registered. *)
Record Socket : Type := { url : string; closed : bool; mode_once : bool }.

(** The fields of [this].  [None] is [undefined] (or [null] for [handler]). *)
Record DashboardPlugin : Type := {
  handler : option Fn;
  host : option string;
  port : option Z;
  root : option string;
  watching : bool;
  socket : option Socket;
  minimal : option bool
}.

(** The argument of the constructor. *)
Record OptionsObject : Type := {
  opt_host : option string;
  opt_port : option Z;
  opt_root : option string;
  opt_handler : option Fn
}.

Inductive Options : Type :=
| OptionsFunction (f : Fn)
| OptionsObj (o : OptionsObject)
| OptionsMissing.

Definition string_or (o : option string) (dflt : string) : string :=
  match o with
  | Some s => if String.eqb s "" then dflt else s
  | None => dflt
  end.

Definition number_or (o : option Z) (dflt : Z) : Z :=
  match o with
  | Some z => if z =? 0 then dflt else z
  | None => dflt
  end.

Definition new_DashboardPlugin (opts : Options) : DashboardPlugin :=
  match opts with
  | OptionsFunction f =>
      {| handler := Some f; host := None; port := None; root := None;
         watching := false; socket := None; minimal := None |}
  | OptionsObj o =>
      {| handler := opt_handler o;
         host := Some (string_or (opt_host o) DEFAULT_HOST);
         port := Some (number_or (opt_port o) DEFAULT_PORT);
         root := opt_root o;
         watching := false; socket := None; minimal := None |}
  | OptionsMissing =>
      {| handler := None;
         host := Some DEFAULT_HOST; port := Some DEFAULT_PORT; root := None;
         watching := false; socket := None; minimal := None |}
  end.

(** What leaves the plugin. *)
Inductive Handler : Type :=
| user (f : Fn)                (* the caller's function *)
| noop
| socket_emit_message.         (* this.socket.emit.bind(this.socket, [message]) *)

Inductive Effect : Type :=
| NewSocket (u : string)
| Call (h : Handler) (b : Batch)
| CloseSocket.

(** The batches that reach the caller's function or the [emit] of the
    socket; [noop] drops its argument. *)
Definition delivered_by (e : Effect) : list Batch :=
  match e with
  | Call noop _ => []
  | Call _ b => [b]
  | _ => []
  end.

Definition delivered (effs : list Effect) : list Batch :=
  flat_map delivered_by effs.

(** *** cleanup *)

Definition close (s : Socket) : Socket :=
  {| url := url s; closed := true; mode_once := mode_once s |}.

Definition cleanup_guard (self : DashboardPlugin) : bool :=
  negb (watching self) && match socket self with Some _ => true | None => false end.

Definition cleanup (self : DashboardPlugin) : DashboardPlugin * list Effect :=
  match watching self, socket self with
  | false, Some s =>
      ({| handler := None; host := host self; port := port self;
          root := root self; watching := watching self;
          socket := Some (close s); minimal := minimal self |},
       [CloseSocket])
  | _, _ => (self, [])
  end.

(** *** apply *)

(** The variables of one call of [apply] that its callbacks capture. *)
Record Scope : Type := {
  local_handler : Handler;
  timer : option Z;
  nodeEnv : JS.Value
}.

Record State : Type := { this : DashboardPlugin; scope : Scope }.

Record Compiler : Type := {
  plugins : list JS.Value;      (* compiler.options.plugins *)
  pathinfo : JS.Value           (* compiler.options.output.pathinfo *)
}.

(** [plugins.filter(plugin => plugin.constructor.name === name)] *)
Fixpoint filter_by_constructor (name : string) (ps : list JS.Value)
  : JS.Completion (list JS.Value) :=
  match ps with
  | [] => JS.Normal []
  | p :: ps' =>
      JS.bind (JS.constructor_name p) (fun n =>
      JS.bind (filter_by_constructor name ps') (fun rest =>
      JS.Normal (if String.eqb n name then p :: rest else rest)))
  end.

Definition definePlugin (compiler : Compiler) : JS.Completion JS.Value :=
  JS.bind (filter_by_constructor "DefinePlugin" (plugins compiler)) (fun found =>
  JS.Normal (hd JS.Undefined found)).

Definition default_nodeEnv : JS.Value :=
  JS.Str (JS.dquote ++ "development" ++ JS.dquote).

Definition read_nodeEnv (compiler : Compiler) : JS.Completion JS.Value :=
  JS.bind (definePlugin compiler) (fun dp =>
  JS.JSON_parse
    (JS.getOr default_nodeEnv ["definitions"; "process.env"; "NODE_ENV"] dp)).

Definition socket_url (self : DashboardPlugin) : string :=
  "http://"
  ++ match host self with Some h => h | None => "undefined" end
  ++ ":"
  ++ match port self with Some n => JS.string_of_Z n | None => "undefined" end.

Definition with_socket (self : DashboardPlugin) (s : Socket) : DashboardPlugin :=
  {| handler := handler self; host := host self; port := port self;
     root := root self; watching := watching self;
     socket := Some s; minimal := minimal self |}.

(** [pathinfo] is switched on before anything can throw. *)
Definition apply (compiler : Compiler) (self : DashboardPlugin)
  : Compiler * JS.Completion (State * list Effect) :=
  ({| plugins := plugins compiler; pathinfo := JS.Boolean true |},
   JS.bind (read_nodeEnv compiler) (fun env =>
   match handler self with
   | Some f =>
       JS.Normal
         ({| this := self;
             scope := {| local_handler := user f; timer := None; nodeEnv := env |} |},
          [])
   | None =>
       let u := socket_url self in
       JS.Normal
         ({| this := with_socket self {| url := u; closed := false; mode_once := true |};
             scope := {| local_handler := noop; timer := None; nodeEnv := env |} |},
          [NewSocket u])
   end)).

(** *** The callbacks *)

Inductive Signal : Type :=
| watch_run
| run
| compile
| progress (percent : Q) (msg : string)
| invalid
| failed
| done (st : Stats).

(** What can happen after [apply]: a hook of the compiler, or an event of
    the socket. *)
Inductive Event : Type :=
| Hook (s : Signal)
| Connect
| Mode (minimal_arg : bool).

Definition entry (t : string) (v : Payload) : Entry := {| type := t; value := v |}.

Definition statsOptions (o : CompilationOptions) : JS.Value :=
  JS.or_
    (JS.or_ (JS.and_ (devServer o) (JS.prop (devServer o) "stats")) (stats o))
    (JS.Object "Object" [("colors", JS.Boolean true)]).

Definition compile_batch : Batch :=
  [entry "status" (Text "Compiling")].

Definition progress_batch (now : Z) (t : option Z) (percent : Q) (msg : string) : Batch :=
  [entry "status" (Text "Compiling");
   entry "progress" (Num percent);
   entry "operations" (Text (msg ++ getTimeMessage now t))].

Definition invalid_batch : Batch :=
  [entry "status" (Text "Invalidated");
   entry "progress" (Num 0);
   entry "operations" (Text "idle");
   entry "clear" NoValue].

Definition failed_batch (now : Z) (t : option Z) : Batch :=
  [entry "status" (Text "Failed");
   entry "operations" (Text ("idle" ++ getTimeMessage now t))].

Definition done_batch (now : Z) (t : option Z) (st : Stats) : Batch :=
  [entry "status" (Text "Success");
   entry "progress" (Num 0);
   entry "operations" (Text ("idle" ++ getTimeMessage now t));
   entry "stats" (StatsValue (hasErrors st) (hasWarnings st) (toJson st));
   entry "log" (Text (toString st (statsOptions (options st))))].

Definition nodeEnv_batch (env : JS.Value) : Batch :=
  [entry "nodeEnv" (Js env)].

Definition set_watching (b : bool) (st : State) : State :=
  let self := this st in
  {| this := {| handler := handler self; host := host self; port := port self;
                root := root self; watching := b;
                socket := socket self; minimal := minimal self |};
     scope := scope st |}.

Definition set_minimal (b : bool) (s : Socket) (st : State) : State :=
  let self := this st in
  {| this := {| handler := handler self; host := host self; port := port self;
                root := root self; watching := watching self;
                socket := Some {| url := url s; closed := closed s; mode_once := false |};
                minimal := Some b |};
     scope := scope st |}.

Definition set_timer (t : Z) (st : State) : State :=
  {| this := this st;
     scope := {| local_handler := local_handler (scope st); timer := Some t;
                 nodeEnv := nodeEnv (scope st) |} |}.

Definition set_handler (h : Handler) (st : State) : State :=
  {| this := this st;
     scope := {| local_handler := h; timer := timer (scope st);
                 nodeEnv := nodeEnv (scope st) |} |}.

(** One callback, run at clock reading [now]. *)
Definition on_hook (now : Z) (s : Signal) (st : State) : State * list Effect :=
  let h := local_handler (scope st) in
  let t := timer (scope st) in
  match s with
  | watch_run => (set_watching true st, [])
  | run => (set_watching false st, [])
  | compile => (set_timer now st, [Call h compile_batch])
  | progress percent msg => (st, [Call h (progress_batch now t percent msg)])
  | invalid => (st, [Call h invalid_batch])
  | failed => (st, [Call h (failed_batch now t)])
  | done stats => (st, [Call h (done_batch now t stats)])
  end.

(** The socket listeners exist only when [apply] created the socket. *)
Definition step (now : Z) (e : Event) (st : State) : State * list Effect :=
  match e with
  | Hook s => on_hook now s st
  | Connect =>
      match socket (this st) with
      | Some _ =>
          (set_handler socket_emit_message st,
           [Call socket_emit_message (nodeEnv_batch (nodeEnv (scope st)))])
      | None => (st, [])
      end
  | Mode m =>
      match socket (this st) with
      | Some s => if mode_once s then (set_minimal m s st, []) else (st, [])
      | None => (st, [])
      end
  end.

(** [cleanup] called from outside, between two events. *)
Definition do_cleanup (st : State) : State * list Effect :=
  ({| this := fst (cleanup (this st)); scope := scope st |}, snd (cleanup (this st))).

(** A run: timed events in order, effects concatenated. *)
Fixpoint run_events (evs : list (Z * Event)) (st : State) : State * list Effect :=
  match evs with
  | [] => (st, [])
  | (now, e) :: rest =>
      let '(st1, out1) := step now e st in
      let '(st2, out2) := run_events rest st1 in
      (st2, (out1 ++ out2)%list)
  end.

(** *** The protocol, signal by signal

    What the table of the bridge says each signal hands to the handler and
    does to the timer, as functions of the start instant alone.  The proofs
    relate [run_events] to these. *)

Definition hooks (sigs : list (Z * Signal)) : list (Z * Event) :=
  map (fun p => (fst p, Hook (snd p))) sigs.

Definition batch_of (now : Z) (t : option Z) (s : Signal) : list Batch :=
  match s with
  | watch_run | run => []
  | compile => [compile_batch]
  | progress percent msg => [progress_batch now t percent msg]
  | invalid => [invalid_batch]
  | failed => [failed_batch now t]
  | done stats => [done_batch now t stats]
  end.

Definition timer_after (now : Z) (t : option Z) (s : Signal) : option Z :=
  match s with
  | compile => Some now
  | _ => t
  end.

Fixpoint batches_of (t : option Z) (sigs : list (Z * Signal)) : list Batch :=
  match sigs with
  | [] => []
  | (now, s) :: rest => (batch_of now t s ++ batches_of (timer_after now t s) rest)%list
  end.

(** The start instant known after [sigs], when it was [t] before. *)
Fixpoint last_start (t : option Z) (sigs : list (Z * Signal)) : option Z :=
  match sigs with
  | [] => t
  | (now, s) :: rest => last_start (timer_after now t s) rest
  end.

Definition is_compile (s : Signal) : bool :=
  match s with
  | compile => true
  | _ => false
  end.

(** The closed sets of the message protocol. *)
Definition event_types : list string :=
  ["nodeEnv"; "status"; "progress"; "operations"; "clear"; "stats"; "log"].

Definition status_values : list string :=
  ["Compiling"; "Invalidated"; "Failed"; "Success"].

Definition entry_ok (e : Entry) : Prop :=
  In (type e) event_types
  /\ (type e = "status" -> exists s, value e = Text s /\ In s status_values).

Definition batch_ok (b : Batch) : Prop := b <> [] /\ Forall entry_ok b.

(* ================================================================= *)
(** ** getProjectRoot *)

Section ProjectRoot.

(** Node's module loader and path functions.  [require_ p] is [None] when
    loading [p] throws. *)
Variable require_ : string -> option JS.Value.
Variable path_join : string -> string -> string.
Variable path_resolve : string -> string.
Variable process_cwd : string.

(** [bundle.context]; [None] when the bundle has none. *)
Record Bundle : Type := { context : option string }.

Definition is_set (o : option string) : bool :=
  match o with
  | Some s => negb (String.eqb s "")
  | None => false
  end.

(** A [require] that returns a truthy value. *)
Definition loads (p : string) : bool :=
  match require_ p with
  | Some v => JS.truthy v
  | None => false
  end.

(** The bundle context matches: it is set and a manifest loads under it. *)
Definition context_matches (bundle : option Bundle) (c : string) : Prop :=
  exists b, bundle = Some b /\ context b = Some c /\ c <> ""
            /\ loads (path_join c "package.json") = true.

(** The first [try]: [Some c] when it returns [c], [None] when it falls
    through (condition false, or an exception caught).  Reading [context]
    of a missing bundle throws. *)
Definition try_context (bundle : option Bundle) : option string :=
  match bundle with
  | None => None
  | Some b =>
      match context b with
      | Some c =>
          if negb (String.eqb c "") && loads (path_join c "package.json")
          then Some c else None
      | None => None
      end
  end.

Definition try_cwd : option string :=
  if loads (path_resolve "package.json") then Some process_cwd else None.

Definition getProjectRoot (self : DashboardPlugin) (bundle : option Bundle)
  : option string :=
  if is_set (root self) then root self
  else
    match try_context bundle with
    | Some c => Some c
    | None => try_cwd
    end.

End ProjectRoot.

(* ================================================================= *)
(** ** Concrete inputs used by the examples *)

(** A small file system for the examples: one manifest under [/b], none
    under the working directory [/w]. *)
Module RootExample.

Definition manifest : JS.Value := JS.Object "Object" [("name", JS.Str "app")].

Definition require_ (p : string) : option JS.Value :=
  if String.eqb p "/b/package.json" then Some manifest else None.

Definition require_cwd (p : string) : option JS.Value :=
  if String.eqb p "/w/package.json" then Some manifest else None.

Definition path_join (a b : string) : string := a ++ "/" ++ b.
Definition path_resolve (p : string) : string := "/w/" ++ p.

Definition with_root (r : option string) : DashboardPlugin :=
  new_DashboardPlugin
    (OptionsObj {| opt_host := None; opt_port := None; opt_root := r;
                   opt_handler := None |}).

Definition bundle_at (c : string) : option Bundle := Some {| context := Some c |}.

End RootExample.

Module Sample.

Definition bare_compiler : Compiler :=
  {| plugins := []; pathinfo := JS.Undefined |}.

(** [new DashboardPlugin()] and [new DashboardPlugin(f)]. *)
Definition socket_plugin : DashboardPlugin := new_DashboardPlugin OptionsMissing.

Definition handler_plugin : DashboardPlugin :=
  new_DashboardPlugin (OptionsFunction (UserFunction 0)).

(** [new webpack.DefinePlugin({ [process.env]: { NODE_ENV: v } })] *)
Definition define_plugin (v : JS.Value) : JS.Value :=
  JS.Object "DefinePlugin"
    [("definitions",
      JS.Object "Object" [("process.env", JS.Object "Object" [("NODE_ENV", v)])])].

(** The constant as a JavaScript string literal in single quotes: a code
    fragment DefinePlugin accepts, and not JSON. *)
Definition single_quoted_compiler : Compiler :=
  {| plugins := [define_plugin (JS.Str "'production'")]; pathinfo := JS.Undefined |}.

Definition quoted_compiler : Compiler :=
  {| plugins := [define_plugin (JS.Str (JS.dquote ++ "production" ++ JS.dquote))];
     pathinfo := JS.Undefined |}.

Definition stats : Stats :=
  {| options := {| devServer := JS.Undefined; stats := JS.Undefined |};
     hasErrors := false;
     hasWarnings := true;
     toJson := JS.Object "Object" [("errors", JS.Null)];
     toString := fun _ => "Hash: 0" |}.

(** The states right after [apply] on the bare compiler. *)
Definition handler_state : State :=
  {| this := handler_plugin;
     scope := {| local_handler := user (UserFunction 0); timer := None;
                 nodeEnv := JS.Str "development" |} |}.

Definition socket_state : State :=
  {| this := with_socket socket_plugin
               {| url := "http://127.0.0.1:9838"; closed := false; mode_once := true |};
     scope := {| local_handler := noop; timer := None;
                 nodeEnv := JS.Str "development" |} |}.

End Sample.

(* ================================================================= *)
(** ** Runs with teardown, and measures of a run *)

(** [cleanup] is public: a teardown hook may call it between any two
    events. *)
Inductive Action : Type :=
| At (now : Z) (e : Event)
| Cleanup.

Definition act (a : Action) (st : State) : State * list Effect :=
  match a with
  | At now e => step now e st
  | Cleanup => do_cleanup st
  end.

Fixpoint run_actions (acts : list Action) (st : State) : State * list Effect :=
  match acts with
  | [] => (st, [])
  | a :: rest =>
      let '(st1, out1) := act a st in
      let '(st2, out2) := run_actions rest st1 in
      (st2, (out1 ++ out2)%list)
  end.

(** The signals whose callback calls the handler. *)
Definition emits (s : Signal) : bool :=
  match s with
  | watch_run | run => false
  | _ => true
  end.

(** The value of [watching] after a run that started with [w]. *)
Fixpoint last_watching (w : bool) (acts : list Action) : bool :=
  match acts with
  | [] => w
  | At _ (Hook watch_run) :: rest => last_watching true rest
  | At _ (Hook run) :: rest => last_watching false rest
  | _ :: rest => last_watching w rest
  end.

Definition is_connect (a : Action) : bool :=
  match a with
  | At _ Connect => true
  | _ => false
  end.

(** The argument of the first [mode] event of a run. *)
Fixpoint first_mode (acts : list Action) : option bool :=
  match acts with
  | [] => None
  | At _ (Mode m) :: _ => Some m
  | _ :: rest => first_mode rest
  end.

Definition is_nodeEnv_batch (b : Batch) : bool :=
  match b with
  | e :: _ => String.eqb (type e) "nodeEnv"
  | [] => false
  end.

(** [undefined] and [null], on which a property read throws. *)
Definition nullish (v : JS.Value) : bool :=
  match v with
  | JS.Undefined | JS.Null => true
  | _ => false
  end.

(** The test of the filter in [apply], on a value that is not nullish. *)
Definition has_constructor (name : string) (p : JS.Value) : bool :=
  match JS.constructor_name p with
  | JS.Normal n => String.eqb n name
  | _ => false
  end.

(** Characters a JSON string literal holds as they are: no double quote, no
    backslash, no control character. *)
Definition plain_char (c : ascii) : bool :=
  let n := N_of_ascii c in
  (negb (n =? 34) && negb (n =? 92) && (32 <=? n))%N.

Fixpoint plain (s : string) : bool :=
  match s with
  | EmptyString => true
  | String c rest => plain_char c && plain rest
  end.

(** A compiler whose plugin list is [ps]. *)
Definition compiler_with (ps : list JS.Value) : Compiler :=
  {| plugins := ps; pathinfo := JS.Undefined |}.

(** The value of an accumulated run of decimal digits. *)
Fixpoint uint_value (acc : Z) (d : Decimal.uint) : Z :=
  match d with
  | Decimal.Nil => acc
  | Decimal.D0 l => uint_value (10 * acc + 0) l
  | Decimal.D1 l => uint_value (10 * acc + 1) l
  | Decimal.D2 l => uint_value (10 * acc + 2) l
  | Decimal.D3 l => uint_value (10 * acc + 3) l
  | Decimal.D4 l => uint_value (10 * acc + 4) l
  | Decimal.D5 l => uint_value (10 * acc + 5) l
  | Decimal.D6 l => uint_value (10 * acc + 6) l
  | Decimal.D7 l => uint_value (10 * acc + 7) l
  | Decimal.D8 l => uint_value (10 * acc + 8) l
  | Decimal.D9 l => uint_value (10 * acc + 9) l
  end.

Example getTimeMessage_412 : getTimeMessage 1412 (Some 1000) = " (412ms)".
Proof. reflexivity. Qed.

Example getTimeMessage_3400 : getTimeMessage 3400 (Some 0) = " (3s)".
Proof. vm_compute. reflexivity. Qed.

Example getTimeMessage_1500 : getTimeMessage 1500 (Some 0) = " (2s)".
Proof. vm_compute. reflexivity. Qed.

Example getTimeMessage_undefined : getTimeMessage 5000 None = " (NaNms)".
Proof. reflexivity. Qed.

Example parse_default :
  JS.JSON_parse (JS.Str (JS.dquote ++ "development" ++ JS.dquote)) = JS.Normal (JS.Str "development").
Proof. reflexivity. Qed.

Example parse_production : JS.JSON_parse (JS.Str "production") = JS.Throw JS.SyntaxError.
Proof. reflexivity. Qed.

Example parse_single_quoted :
  JS.JSON_parse (JS.Str "'production'") = JS.Throw JS.SyntaxError.
Proof. reflexivity. Qed.

Example parse_true : JS.JSON_parse (JS.Boolean true) = JS.Normal (JS.Boolean true).
Proof. reflexivity. Qed.

Example parse_num : JS.JSON_parse (JS.Str " -12 ") = JS.Normal (JS.Number (-12)).
Proof. reflexivity. Qed.

Example parse_01 : JS.JSON_parse (JS.Str "01") = JS.Throw JS.SyntaxError.
Proof. reflexivity. Qed.

Example parse_obj : JS.JSON_parse (JS.Object "Object" []) = JS.Unmodelled.
Proof. reflexivity. Qed.

(* ================================================================= *)
(** ** The timer label: proofs *)

Section TimerFacts.

Local Open Scope Z_scope.

(** Rounding the quotient by a thousand, in integers. *)
Lemma Math_round_thousandth (d : Z) :
  JS.Math_round (inject_Z d / inject_Z ONE_SECOND) = (d + 500) / 1000.
Proof.
  unfold JS.Math_round, ONE_SECOND, Qdiv, Qinv, Qmult, Qplus, Qfloor, inject_Z.
  cbn [Qnum Qden].
  replace (d * 1 * 2 + 1 * Z.pos (1 * 1000))%Z with ((d + 500) * 2)%Z by lia.
  replace (Z.pos (1 * 1000 * 2)) with (1000 * 2)%Z by reflexivity.
  apply Z.div_mul_cancel_r; lia.
Qed.

(** The rounded value is the integer nearest to [d / 1000], the upper
    one at a tie. *)
Lemma Math_round_nearest (d : Z) :
  let r := JS.Math_round (inject_Z d / inject_Z ONE_SECOND) in
  1000 * r - 500 <= d < 1000 * r + 500.
Proof.
  cbv zeta. rewrite Math_round_thousandth.
  pose proof (Z.div_mod (d + 500) 1000 ltac:(lia)) as E.
  pose proof (Z.mod_pos_bound (d + 500) 1000 ltac:(lia)) as B.
  lia.
Qed.

Lemma append_assoc (a b c : string) : (a ++ b) ++ c = a ++ b ++ c.
Proof. induction a as [| x a IH]; cbn; [reflexivity | now rewrite IH]. Qed.

Lemma string_of_uint_head (d : Decimal.uint) :
  exists c r, NilZero.string_of_uint d = String c r /\ c <> "N"%char.
Proof.
  destruct d; cbn; eexists; eexists; (split; [reflexivity | discriminate]).
Qed.

(** A rendered integer starts with a digit or a minus sign. *)
Lemma string_of_Z_head (z : Z) :
  exists c r, JS.string_of_Z z = String c r /\ c <> "N"%char.
Proof.
  unfold JS.string_of_Z, NilZero.string_of_int.
  destruct (Z.to_int z) as [d | d].
  - apply string_of_uint_head.
  - eexists; eexists; split; [reflexivity | discriminate].
Qed.

Lemma timeText_millis_head (d : Z) :
  exists c r, timeText (Millis d) = String c r /\ c <> "N"%char.
Proof.
  unfold timeText.
  destruct (d >=? ONE_SECOND);
    match goal with
    | |- context [JS.string_of_Z ?z] =>
        destruct (string_of_Z_head z) as (c & r & E & N); rewrite E
    end; cbn; eauto.
Qed.

(** The label of an undefined start is the label of no numeric start. *)
Lemma getTimeMessage_NaN_distinct (now now' t : Z) :
  getTimeMessage now None <> getTimeMessage now' (Some t).
Proof.
  unfold getTimeMessage, elapsed.
  destruct (timeText_millis_head (now' - t)) as (c & r & E & N).
  rewrite E. cbn. intros H. injection H as H. congruence.
Qed.

End TimerFacts.

(** C1, as stated, fails: for an elapsed time of 412 ms the function does
    not return the bare text 412ms; the text is wrapped in a leading space
    and parentheses. *)
Lemma getTimeMessage_not_bare :
  getTimeMessage 1412 (Some 1000) <> JS.string_of_Z 412 ++ "ms"
  /\ getTimeMessage 3400 (Some 0) <> JS.string_of_Z 3 ++ "s".
Proof. split; vm_compute; discriminate. Qed.

(** C1, amended: for a start instant [t] and a clock reading [now], with
    [d = now - t], [getTimeMessage] returns a space, an opening parenthesis,
    the label and a closing parenthesis, where the label is [d] in decimal
    followed by ms when [d < 1000], and the integer nearest to [d / 1000]
    (halves upwards, that is [(d + 500) / 1000] in integer division)
    followed by s when [d >= 1000]. *)
Theorem getTimeMessage_label (now t : Z) :
  (now - t < 1000 ->
     getTimeMessage now (Some t) = " (" ++ JS.string_of_Z (now - t) ++ "ms" ++ ")")
  /\ (now - t >= 1000 ->
     getTimeMessage now (Some t)
     = " (" ++ JS.string_of_Z ((now - t + 500) / 1000) ++ "s" ++ ")").
Proof.
  unfold getTimeMessage, elapsed, timeText.
  rewrite Math_round_thousandth.
  split; intros H.
  - destruct (Z.geb_spec (now - t) ONE_SECOND) as [G | G];
      [unfold ONE_SECOND in G; lia |].
    now rewrite append_assoc.
  - destruct (Z.geb_spec (now - t) ONE_SECOND) as [G | G];
      [| unfold ONE_SECOND in G; lia].
    now rewrite append_assoc.
Qed.

Lemma getTimeMessage_label_witness :
  getTimeMessage 1412 (Some 1000) = " (412ms)"
  /\ getTimeMessage 3400 (Some 0) = " (3s)".
Proof.
  split.
  - apply (proj1 (getTimeMessage_label 1412 1000)). reflexivity.
  - apply (proj2 (getTimeMessage_label 3400 0)). discriminate.
Defined.

(* ================================================================= *)
(** ** getProjectRoot: proofs *)

Section ProjectRootFacts.

Variable require_ : string -> option JS.Value.
Variable path_join : string -> string -> string.
Variable path_resolve : string -> string.
Variable process_cwd : string.

Local Abbreviation resolve :=
  (getProjectRoot require_ path_join path_resolve process_cwd).
Local Abbreviation context_matches := (context_matches require_ path_join).

Lemma is_set_true (o : option string) (r : string) :
  o = Some r -> r <> "" -> is_set o = true.
Proof.
  intros -> N. cbn. destruct (String.eqb_spec r ""); [contradiction | reflexivity].
Qed.

Lemma try_context_matches (bundle : option Bundle) (c : string) :
  try_context require_ path_join bundle = Some c <-> context_matches bundle c.
Proof.
  unfold try_context, context_matches. split.
  - destruct bundle as [b |]; [| discriminate].
    destruct (context b) as [c' |] eqn:E; [| discriminate].
    destruct (String.eqb_spec c' ""); cbn; [discriminate |].
    destruct (loads require_ (path_join c' "package.json")) eqn:L; [| discriminate].
    intros [= <-]. exists b. auto.
  - intros (b & -> & -> & N & L).
    destruct (String.eqb_spec c ""); [contradiction |].
    cbn. now rewrite L.
Qed.

Lemma try_context_none (bundle : option Bundle) :
  (forall c, ~ context_matches bundle c) ->
  try_context require_ path_join bundle = None.
Proof.
  intros H. destruct (try_context require_ path_join bundle) as [c |] eqn:E;
    [| reflexivity].
  apply try_context_matches in E. now apply H in E.
Qed.

(** C2: the four ordered cases of the root resolution.  A field is set
    when it holds a non-empty string (it is tested for truth); a manifest
    loads when [require] returns, without throwing, a value that tests
    true. *)
Theorem getProjectRoot_fallback (self : DashboardPlugin) (bundle : option Bundle) :
  (forall r, root self = Some r -> r <> "" -> resolve self bundle = Some r)
  /\ (is_set (root self) = false ->
      forall c, context_matches bundle c -> resolve self bundle = Some c)
  /\ (is_set (root self) = false ->
      (forall c, ~ context_matches bundle c) ->
      loads require_ (path_resolve "package.json") = true ->
      resolve self bundle = Some process_cwd)
  /\ (is_set (root self) = false ->
      (forall c, ~ context_matches bundle c) ->
      loads require_ (path_resolve "package.json") = false ->
      resolve self bundle = None).
Proof.
  unfold getProjectRoot. split; [| split; [| split]].
  - intros r E N. now rewrite (is_set_true _ _ E N).
  - intros -> c M. apply try_context_matches in M. now rewrite M.
  - intros -> M L. rewrite (try_context_none _ M). unfold try_cwd. now rewrite L.
  - intros -> M L. rewrite (try_context_none _ M). unfold try_cwd. now rewrite L.
Qed.

End ProjectRootFacts.

Lemma getProjectRoot_fallback_witness :
  getProjectRoot RootExample.require_ RootExample.path_join RootExample.path_resolve "/w"
    (RootExample.with_root (Some "/a")) (RootExample.bundle_at "/b") = Some "/a"
  /\ getProjectRoot RootExample.require_ RootExample.path_join RootExample.path_resolve "/w"
    (RootExample.with_root None) (RootExample.bundle_at "/b") = Some "/b"
  /\ getProjectRoot RootExample.require_cwd RootExample.path_join RootExample.path_resolve "/w"
    (RootExample.with_root None) (RootExample.bundle_at "/b") = Some "/w"
  /\ getProjectRoot RootExample.require_ RootExample.path_join RootExample.path_resolve "/w"
    (RootExample.with_root None) None = None.
Proof.
  split; [| split; [| split]].
  - apply (proj1 (getProjectRoot_fallback RootExample.require_ RootExample.path_join
             RootExample.path_resolve "/w" (RootExample.with_root (Some "/a"))
             (RootExample.bundle_at "/b")) "/a"); [reflexivity | discriminate].
  - apply (proj1 (proj2 (getProjectRoot_fallback RootExample.require_ RootExample.path_join
             RootExample.path_resolve "/w" (RootExample.with_root None)
             (RootExample.bundle_at "/b"))) eq_refl "/b").
    exists {| context := Some "/b" |}.
    split; [reflexivity | split; [reflexivity | split; [discriminate | reflexivity]]].
  - apply (proj1 (proj2 (proj2 (getProjectRoot_fallback RootExample.require_cwd
             RootExample.path_join RootExample.path_resolve "/w"
             (RootExample.with_root None) (RootExample.bundle_at "/b")))) eq_refl).
    + intros c (b & B & C & N & L). injection B as <-. injection C as <-.
      discriminate L.
    + reflexivity.
  - apply (proj2 (proj2 (proj2 (getProjectRoot_fallback RootExample.require_
             RootExample.path_join RootExample.path_resolve "/w"
             (RootExample.with_root None) None))) eq_refl).
    + intros c (b & B & _). discriminate B.
    + reflexivity.
Defined.

(* ================================================================= *)
(** ** cleanup: proofs *)

Lemma cleanup_guard_spec (self : DashboardPlugin) :
  cleanup_guard self = true <->
  watching self = false /\ exists s, socket self = Some s.
Proof.
  unfold cleanup_guard. destruct (watching self), (socket self) as [s |]; cbn;
    (split; [try discriminate; eauto | intros (W & s' & S); (discriminate || reflexivity)]).
Qed.

Lemma cleanup_passed (self : DashboardPlugin) (s : Socket) :
  watching self = false -> socket self = Some s ->
  cleanup self =
  ({| handler := None; host := host self; port := port self; root := root self;
      watching := false; socket := Some (close s); minimal := minimal self |},
   [CloseSocket]).
Proof. unfold cleanup. now intros -> ->. Qed.

Lemma cleanup_blocked (self : DashboardPlugin) :
  cleanup_guard self = false -> cleanup self = (self, []).
Proof.
  unfold cleanup_guard, cleanup.
  destruct (watching self), (socket self); cbn; (discriminate || reflexivity).
Qed.

(** C3: a second [cleanup] leaves the plugin as the first one left it, and
    a [cleanup] while watching, or without a socket, changes nothing (and
    calls nothing). *)
Theorem cleanup_idempotent (self : DashboardPlugin) :
  fst (cleanup (fst (cleanup self))) = fst (cleanup self)
  /\ (watching self = true \/ socket self = None -> cleanup self = (self, [])).
Proof.
  split.
  - destruct (cleanup_guard self) eqn:G.
    + apply cleanup_guard_spec in G as (W & s & S).
      rewrite (cleanup_passed self s W S). cbn. reflexivity.
    + rewrite (cleanup_blocked self G). cbn [fst].
      now rewrite (cleanup_blocked self G).
  - intros [W | S]; apply cleanup_blocked; unfold cleanup_guard.
    + now rewrite W.
    + rewrite S. apply andb_false_r.
Qed.

Lemma cleanup_idempotent_witness :
  let watched :=
    {| handler := None; host := Some DEFAULT_HOST; port := Some DEFAULT_PORT;
       root := None; watching := true;
       socket := Some {| url := "http://127.0.0.1:9838"; closed := false;
                         mode_once := true |};
       minimal := None |} in
  cleanup watched = (watched, []).
Proof.
  intros watched.
  apply (proj2 (cleanup_idempotent watched)). left. reflexivity.
Defined.

(* ================================================================= *)
(** ** The callbacks: what a run of hooks does *)

Lemma run_events_app (a b : list (Z * Event)) (st : State) :
  run_events (a ++ b) st =
  (fst (run_events b (fst (run_events a st))),
   (snd (run_events a st) ++ snd (run_events b (fst (run_events a st))))%list).
Proof.
  revert st. induction a as [| [now e] a IH]; intros st; cbn [app run_events].
  - cbn [fst snd app]. now destruct (run_events b st).
  - destruct (step now e st) as [st1 out1]. rewrite IH.
    destruct (run_events a st1) as [st2 out2]. cbn [fst snd].
    now rewrite app_assoc.
Qed.

Lemma hooks_app (a b : list (Z * Signal)) : hooks (a ++ b) = (hooks a ++ hooks b)%list.
Proof. apply map_app. Qed.

(** A hook touches the scope through the timer only, and [this] through
    [watching] only. *)
Lemma on_hook_scope (now : Z) (s : Signal) (st : State) :
  scope (fst (on_hook now s st)) =
  {| local_handler := local_handler (scope st);
     timer := timer_after now (timer (scope st)) s;
     nodeEnv := nodeEnv (scope st) |}.
Proof. destruct st as [self [h t env]]; destruct s; reflexivity. Qed.

Lemma on_hook_effects (now : Z) (s : Signal) (st : State) :
  snd (on_hook now s st) =
  map (Call (local_handler (scope st))) (batch_of now (timer (scope st)) s).
Proof. destruct s; reflexivity. Qed.

Lemma on_hook_socket (now : Z) (s : Signal) (st : State) :
  socket (this (fst (on_hook now s st))) = socket (this st).
Proof. destruct s; reflexivity. Qed.

(** The trace of a run of hooks: the batches of the table, each handed to
    the captured handler. *)
Lemma run_hooks_trace (sigs : list (Z * Signal)) (st : State) :
  snd (run_events (hooks sigs) st) =
  map (Call (local_handler (scope st))) (batches_of (timer (scope st)) sigs).
Proof.
  revert st. induction sigs as [| [now s] sigs IH]; intros st; [reflexivity |].
  cbn [hooks map run_events fst snd step batches_of].
  pose proof (on_hook_effects now s st) as E.
  pose proof (on_hook_scope now s st) as Sc.
  destruct (on_hook now s st) as [st1 out1]. cbn [fst snd] in E, Sc.
  specialize (IH st1). fold (hooks sigs).
  destruct (run_events (hooks sigs) st1) as [st2 out2]. cbn [fst snd] in IH |- *.
  rewrite E, IH, Sc, map_app. reflexivity.
Qed.

Lemma run_hooks_scope (sigs : list (Z * Signal)) (st : State) :
  scope (fst (run_events (hooks sigs) st)) =
  {| local_handler := local_handler (scope st);
     timer := last_start (timer (scope st)) sigs;
     nodeEnv := nodeEnv (scope st) |}.
Proof.
  revert st. induction sigs as [| [now s] sigs IH]; intros st.
  - now destruct st as [self [h t env]].
  - cbn [hooks map run_events fst snd step last_start].
    pose proof (on_hook_scope now s st) as Sc.
    destruct (on_hook now s st) as [st1 out1]. cbn [fst] in Sc.
    specialize (IH st1). fold (hooks sigs).
    destruct (run_events (hooks sigs) st1) as [st2 out2]. cbn [fst] in IH |- *.
    rewrite IH, Sc. reflexivity.
Qed.

Lemma run_hooks_socket (sigs : list (Z * Signal)) (st : State) :
  socket (this (fst (run_events (hooks sigs) st))) = socket (this st).
Proof.
  revert st. induction sigs as [| [now s] sigs IH]; intros st; [reflexivity |].
  cbn [hooks map run_events fst snd step].
  pose proof (on_hook_socket now s st) as So.
  destruct (on_hook now s st) as [st1 out1]. cbn [fst] in So.
  specialize (IH st1). fold (hooks sigs).
  destruct (run_events (hooks sigs) st1) as [st2 out2]. cbn [fst] in IH |- *.
  congruence.
Qed.

Lemma delivered_app (a b : list Effect) :
  delivered (a ++ b) = (delivered a ++ delivered b)%list.
Proof. apply flat_map_app. Qed.

Lemma delivered_noop (bs : list Batch) : delivered (map (Call noop) bs) = [].
Proof. induction bs as [| b bs IH]; [reflexivity | exact IH]. Qed.

Lemma delivered_calls (h : Handler) (bs : list Batch) :
  h <> noop -> delivered (map (Call h) bs) = bs.
Proof.
  intros N. induction bs as [| b bs IH]; [reflexivity |].
  cbn [map]. change (delivered (Call h b :: map (Call h) bs))
    with (delivered_by (Call h b) ++ delivered (map (Call h) bs))%list.
  rewrite IH. destruct h; [reflexivity | contradiction | reflexivity].
Qed.

(** The start instant after a run is the clock of its last [compile]. *)
Lemma last_start_none (t : option Z) (sigs : list (Z * Signal)) :
  (forall n, ~ In (n, compile) sigs) -> last_start t sigs = t.
Proof.
  revert t. induction sigs as [| [now s] sigs IH]; intros t H; [reflexivity |].
  cbn [last_start]. rewrite IH.
  - destruct s; try reflexivity. exfalso. apply (H now). now left.
  - intros n I. apply (H n). now right.
Qed.

Lemma last_start_last (t : option Z) (pre post : list (Z * Signal)) (n : Z) :
  (forall m, ~ In (m, compile) post) ->
  last_start t (pre ++ (n, compile) :: post) = Some n.
Proof.
  revert t. induction pre as [| [now s] pre IH]; intros t H.
  - cbn. now apply last_start_none.
  - cbn [app last_start]. now apply IH.
Qed.

(* ================================================================= *)
(** ** cleanup and the callbacks *)

(** C4, as stated, fails: [apply] in socket mode, then [connect], then a
    [cleanup] whose guard passes; the next [compile] still hands its batch
    to the socket's [emit], because the callbacks use the handler captured
    by [apply], which [cleanup] cannot reach. *)
Lemma cleanup_does_not_silence_callbacks :
  snd (apply Sample.bare_compiler Sample.socket_plugin)
  = JS.Normal (Sample.socket_state, [NewSocket "http://127.0.0.1:9838"])
  /\ let st1 := fst (step 0 Connect Sample.socket_state) in
     cleanup_guard (this st1) = true
     /\ handler (this (fst (do_cleanup st1))) = None
     /\ local_handler (scope (fst (do_cleanup st1))) = socket_emit_message
     /\ snd (step 10 (Hook compile) (fst (do_cleanup st1)))
        = [Call socket_emit_message compile_batch]
     /\ delivered (snd (step 10 (Hook compile) (fst (do_cleanup st1)))) <> [].
Proof. vm_compute. repeat split; discriminate. Qed.

(** C4, amended: a [cleanup] whose guard passes sets the [handler] field of
    the plugin to null and closes the socket, and leaves the variables
    captured by the callbacks of [apply] as they were: every later run of
    lifecycle signals makes exactly the handler calls it would have made
    without the [cleanup].  Nothing is delivered when the captured handler
    is still the initial no-op (no [connect] yet). *)
Theorem cleanup_keeps_captured_handler (st : State) (sigs : list (Z * Signal)) :
  cleanup_guard (this st) = true ->
  handler (this (fst (do_cleanup st))) = None
  /\ (exists s, socket (this st) = Some s
                /\ socket (this (fst (do_cleanup st))) = Some (close s))
  /\ snd (do_cleanup st) = [CloseSocket]
  /\ scope (fst (do_cleanup st)) = scope st
  /\ snd (run_events (hooks sigs) (fst (do_cleanup st)))
     = snd (run_events (hooks sigs) st)
  /\ (local_handler (scope st) = noop ->
      delivered (snd (run_events (hooks sigs) (fst (do_cleanup st)))) = []).
Proof.
  intros G. apply cleanup_guard_spec in G as (W & s & S).
  unfold do_cleanup. rewrite (cleanup_passed (this st) s W S). cbn [fst snd].
  split; [reflexivity |].
  split; [exists s; split; [exact S | reflexivity] |].
  split; [reflexivity |].
  split; [reflexivity |].
  split.
  - now rewrite !run_hooks_trace.
  - intros N. rewrite run_hooks_trace. cbn [scope]. rewrite N. apply delivered_noop.
Qed.

Lemma cleanup_keeps_captured_handler_witness :
  snd (run_events (hooks [(10, compile); (20, failed)])
         (fst (do_cleanup (fst (step 0 Connect Sample.socket_state)))))
  = snd (run_events (hooks [(10, compile); (20, failed)])
         (fst (step 0 Connect Sample.socket_state))).
Proof.
  apply (cleanup_keeps_captured_handler
           (fst (step 0 Connect Sample.socket_state))
           [(10, compile); (20, failed)]).
  reflexivity.
Defined.

(* ================================================================= *)
(** ** The batches *)

(** C6: an [invalid] signal makes one handler call, with the four entries
    status Invalidated, progress 0, operations idle, clear, in this order,
    and changes nothing. *)
Theorem invalid_batch_four_entries (now : Z) (st : State) :
  step now (Hook invalid) st =
  (st,
   [Call (local_handler (scope st))
      [ {| type := "status"; value := Text "Invalidated" |};
        {| type := "progress"; value := Num 0 |};
        {| type := "operations"; value := Text "idle" |};
        {| type := "clear"; value := NoValue |} ]]).
Proof. reflexivity. Qed.

(** C7: the batch of a [done] signal has one stats entry, the fourth, and
    it carries the results of [hasErrors()], [hasWarnings()] and [toJson()]
    of the stats object it was given. *)
Theorem done_batch_stats_entry (now : Z) (st : State) (stats : Stats) :
  exists b,
    snd (step now (Hook (done stats)) st) = [Call (local_handler (scope st)) b]
    /\ nth_error b 3
       = Some {| type := "stats";
                 value := StatsValue (hasErrors stats) (hasWarnings stats) (toJson stats) |}
    /\ (forall e, In e b -> type e = "stats" ->
        value e = StatsValue (hasErrors stats) (hasWarnings stats) (toJson stats)).
Proof.
  eexists. split; [reflexivity |]. split; [reflexivity |].
  intros e I T. cbn in I.
  destruct I as [<- | [<- | [<- | [<- | [<- | []]]]]]; cbn in T;
    (discriminate T || reflexivity).
Qed.

Lemma done_batch_stats_entry_witness :
  exists b,
    snd (step 3500 (Hook (done Sample.stats)) Sample.handler_state)
    = [Call (local_handler (scope Sample.handler_state)) b]
    /\ nth_error b 3
       = Some {| type := "stats";
                 value := StatsValue (hasErrors Sample.stats) (hasWarnings Sample.stats)
                            (toJson Sample.stats) |}
    /\ (forall e, In e b -> type e = "stats" ->
        value e = StatsValue (hasErrors Sample.stats) (hasWarnings Sample.stats)
                    (toJson Sample.stats)).
Proof. exact (done_batch_stats_entry 3500 Sample.handler_state Sample.stats). Defined.

(** C8, as stated, fails: right after [apply], with no [compile] yet, the
    start instant is undefined, not zero: a [done] at clock 5000 reports
    idle (NaNms), which is the label of no numeric start instant. *)
Lemma done_before_compile_is_NaN :
  nth_error (done_batch 5000 (timer (scope Sample.handler_state)) Sample.stats) 2
  = Some (entry "operations" (Text "idle (NaNms)"))
  /\ snd (step 5000 (Hook (done Sample.stats)) Sample.handler_state)
     = [Call (user (UserFunction 0)) (done_batch 5000 None Sample.stats)]
  /\ "idle" ++ getTimeMessage 5000 None <> "idle" ++ getTimeMessage 5000 (Some 0)
  /\ (forall t, getTimeMessage 5000 None <> getTimeMessage 5000 (Some t)).
Proof.
  split; [reflexivity |]. split; [reflexivity |]. split.
  - vm_compute. discriminate.
  - intros t. apply getTimeMessage_NaN_distinct.
Qed.

(** C8, amended: a [done] signal always yields its batch (the callback is
    total), and its operations entry is idle followed by the label computed
    from the start instant of the most recent [compile] since [apply]; when
    there has been no [compile] since [apply] the start instant is undefined
    and the entry reads idle (NaNms). *)
Theorem done_operations_entry
  (st : State) (sigs : list (Z * Signal)) (now : Z) (stats : Stats) :
  let st' := fst (run_events (hooks sigs) st) in
  let start := last_start (timer (scope st)) sigs in
  (exists b,
     snd (step now (Hook (done stats)) st') = [Call (local_handler (scope st)) b]
     /\ nth_error b 2
        = Some (entry "operations" (Text ("idle" ++ getTimeMessage now start))))
  /\ (forall pre n post,
        sigs = (pre ++ (n, compile) :: post)%list ->
        (forall m, ~ In (m, compile) post) ->
        start = Some n)
  /\ (timer (scope st) = None ->
      (forall n, ~ In (n, compile) sigs) ->
      start = None /\ "idle" ++ getTimeMessage now start = "idle (NaNms)").
Proof.
  cbv zeta. split; [| split].
  - eexists. cbn [step on_hook snd]. rewrite run_hooks_scope. cbn [local_handler timer].
    split; reflexivity.
  - intros pre n post -> H. now apply last_start_last.
  - intros T H. rewrite (last_start_none _ _ H), T. split; reflexivity.
Qed.

Lemma done_operations_entry_witness :
  last_start (timer (scope Sample.handler_state)) [(100, compile); (150, invalid)]
  = Some 100
  /\ last_start (timer (scope Sample.handler_state)) [(150, invalid)] = None.
Proof.
  split.
  - apply (proj1 (proj2 (done_operations_entry Sample.handler_state
             [(100, compile); (150, invalid)] 3500 Sample.stats))
             [] 100 [(150, invalid)]).
    + reflexivity.
    + intros m [E | []]. discriminate E.
  - apply (proj2 (proj2 (done_operations_entry Sample.handler_state
             [(150, invalid)] 3500 Sample.stats))).
    + reflexivity.
    + intros m [E | []]. discriminate E.
Defined.

(* ================================================================= *)
(** ** Handler mode and socket mode *)

Lemma batches_of_app (t : option Z) (a b : list (Z * Signal)) :
  batches_of t (a ++ b) = (batches_of t a ++ batches_of (last_start t a) b)%list.
Proof.
  revert t. induction a as [| [now s] a IH]; intros t; [reflexivity |].
  cbn [app batches_of last_start]. now rewrite IH, app_assoc.
Qed.

(** What [apply] leaves behind when it returns. *)
Lemma apply_handler_mode (c : Compiler) (self : DashboardPlugin) (f : Fn)
  (st : State) (out : list Effect) :
  handler self = Some f ->
  snd (apply c self) = JS.Normal (st, out) ->
  exists env,
    read_nodeEnv c = JS.Normal env
    /\ st = {| this := self;
               scope := {| local_handler := user f; timer := None; nodeEnv := env |} |}
    /\ out = [].
Proof.
  intros H. unfold apply. cbn [snd]. rewrite H.
  destruct (read_nodeEnv c) as [env | e |]; cbn [JS.bind]; try discriminate.
  intros [= <- <-]. now exists env.
Qed.

Lemma apply_socket_mode (c : Compiler) (self : DashboardPlugin)
  (st : State) (out : list Effect) :
  handler self = None ->
  snd (apply c self) = JS.Normal (st, out) ->
  exists env,
    read_nodeEnv c = JS.Normal env
    /\ st = {| this := with_socket self
                         {| url := socket_url self; closed := false; mode_once := true |};
               scope := {| local_handler := noop; timer := None; nodeEnv := env |} |}
    /\ out = [NewSocket (socket_url self)].
Proof.
  intros H. unfold apply. cbn [snd]. rewrite H.
  destruct (read_nodeEnv c) as [env | e |]; cbn [JS.bind]; try discriminate.
  intros [= <- <-]. now exists env.
Qed.

(** C9, as stated, fails: for the one signal [compile], handler mode
    delivers the Compiling batch; socket mode delivers nothing when the
    socket has not connected, and an extra nodeEnv batch first when it
    has. *)
Lemma socket_mode_batches_differ :
  snd (apply Sample.bare_compiler Sample.handler_plugin)
  = JS.Normal (Sample.handler_state, [])
  /\ snd (apply Sample.bare_compiler Sample.socket_plugin)
     = JS.Normal (Sample.socket_state, [NewSocket "http://127.0.0.1:9838"])
  /\ delivered (snd (run_events (hooks [(10, compile)]) Sample.handler_state))
     = [compile_batch]
  /\ delivered (snd (run_events (hooks [(10, compile)]) Sample.socket_state)) = []
  /\ delivered (snd (run_events ((0, Connect) :: hooks [(10, compile)]) Sample.socket_state))
     = [nodeEnv_batch (JS.Str "development"); compile_batch]
  /\ delivered (snd (run_events (hooks [(10, compile)]) Sample.handler_state))
     <> delivered (snd (run_events (hooks [(10, compile)]) Sample.socket_state))
  /\ delivered (snd (run_events (hooks [(10, compile)]) Sample.handler_state))
     <> delivered (snd (run_events ((0, Connect) :: hooks [(10, compile)])
                          Sample.socket_state)).
Proof. vm_compute. repeat split; discriminate. Qed.

(** C9, amended: for the same compiler, the same signals and the same
    clock, both modes build the same batch for each signal.  Handler mode
    delivers all of them.  Socket mode drops the batches of the signals
    that precede the socket's [connect], delivers one nodeEnv batch at
    [connect], and from then on delivers the same batches as handler
    mode. *)
Theorem socket_mode_delivery
  (c : Compiler) (optsH optsS : Options) (f : Fn)
  (sH sS : State) (oH oS : list Effect)
  (pre post : list (Z * Signal)) (now : Z) :
  handler (new_DashboardPlugin optsH) = Some f ->
  handler (new_DashboardPlugin optsS) = None ->
  snd (apply c (new_DashboardPlugin optsH)) = JS.Normal (sH, oH) ->
  snd (apply c (new_DashboardPlugin optsS)) = JS.Normal (sS, oS) ->
  delivered (snd (run_events (hooks (pre ++ post)) sH))
  = (batches_of None pre ++ batches_of (last_start None pre) post)%list
  /\ delivered (snd (run_events (hooks pre) sS)) = []
  /\ delivered (snd (run_events (hooks pre ++ (now, Connect) :: hooks post) sS))
     = nodeEnv_batch (nodeEnv (scope sH)) :: batches_of (last_start None pre) post.
Proof.
  intros HH HS AH AS.
  destruct (apply_handler_mode _ _ _ _ _ HH AH) as (envH & RH & -> & ->).
  destruct (apply_socket_mode _ _ _ _ HS AS) as (envS & RS & -> & ->).
  assert (envS = envH) as -> by congruence.
  split; [| split].
  - rewrite run_hooks_trace. cbn [scope local_handler timer].
    rewrite delivered_calls by discriminate. apply batches_of_app.
  - rewrite run_hooks_trace. apply delivered_noop.
  - rewrite run_events_app. cbn [snd]. rewrite delivered_app.
    rewrite run_hooks_trace at 1. cbn [scope local_handler]. rewrite delivered_noop.
    cbn [app run_events step].
    pose proof (run_hooks_socket pre
      {| this := with_socket (new_DashboardPlugin optsS)
                   {| url := socket_url (new_DashboardPlugin optsS);
                      closed := false; mode_once := true |};
         scope := {| local_handler := noop; timer := None; nodeEnv := envH |} |}) as So.
    pose proof (run_hooks_scope pre
      {| this := with_socket (new_DashboardPlugin optsS)
                   {| url := socket_url (new_DashboardPlugin optsS);
                      closed := false; mode_once := true |};
         scope := {| local_handler := noop; timer := None; nodeEnv := envH |} |}) as Sc.
    destruct (run_events (hooks pre) _) as [st1 out1]. cbn [fst] in So, Sc |- *.
    cbn [this with_socket socket scope local_handler timer nodeEnv] in So, Sc.
    rewrite So.
    pose proof (run_hooks_trace post (set_handler socket_emit_message st1)) as T.
    destruct (run_events (hooks post) (set_handler socket_emit_message st1))
      as [st2 out2].
    cbn [snd] in T |- *. rewrite T. cbn [set_handler scope local_handler timer].
    rewrite Sc. cbn [nodeEnv timer].
    rewrite delivered_app, delivered_calls by discriminate. reflexivity.
Qed.

Lemma socket_mode_delivery_witness :
  delivered (snd (run_events (hooks [(5, invalid)] ++ (7, Connect) :: hooks [(10, compile)])
                    Sample.socket_state))
  = nodeEnv_batch (nodeEnv (scope Sample.handler_state))
    :: batches_of (last_start None [(5, invalid)]) [(10, compile)].
Proof.
  apply (proj2 (proj2 (socket_mode_delivery Sample.bare_compiler
           (OptionsFunction (UserFunction 0)) OptionsMissing (UserFunction 0)
           Sample.handler_state Sample.socket_state
           [] [NewSocket "http://127.0.0.1:9838"]
           [(5, invalid)] [(10, compile)] 7
           eq_refl eq_refl eq_refl eq_refl))).
Defined.

(* ================================================================= *)
(** ** The closed sets of the protocol *)

Ltac in_list := first [left; reflexivity | right; in_list].

Ltac entry_ok_tac :=
  split;
  [ cbn; in_list
  | cbn; intros T;
    (discriminate T || (eexists; split; [reflexivity | cbn; in_list])) ].

Ltac batch_ok_tac :=
  split; [discriminate | repeat (constructor; [entry_ok_tac |]); constructor].

Lemma batch_of_ok (now : Z) (t : option Z) (s : Signal) (b : Batch) :
  In b (batch_of now t s) -> batch_ok b.
Proof.
  destruct s; cbn [batch_of In]; intros I;
    (contradiction || (destruct I as [<- | []]; batch_ok_tac)).
Qed.

Lemma nodeEnv_batch_ok (env : JS.Value) : batch_ok (nodeEnv_batch env).
Proof. batch_ok_tac. Qed.

Lemma step_batch_ok (now : Z) (e : Event) (st : State) (h : Handler) (b : Batch) :
  In (Call h b) (snd (step now e st)) -> batch_ok b.
Proof.
  destruct e as [s | | m]; cbn [step].
  - rewrite on_hook_effects. intros I. apply in_map_iff in I as (b' & [= _ <-] & I).
    exact (batch_of_ok _ _ _ _ I).
  - destruct (socket (this st)); cbn; [| tauto].
    intros [[= _ <-] | []]. apply nodeEnv_batch_ok.
  - destruct (socket (this st)) as [s |]; [destruct (mode_once s) |]; cbn; tauto.
Qed.

Lemma run_events_batch_ok (evs : list (Z * Event)) (st : State) (h : Handler) (b : Batch) :
  In (Call h b) (snd (run_events evs st)) -> batch_ok b.
Proof.
  revert st. induction evs as [| [now e] evs IH]; intros st; cbn [run_events].
  - intros [].
  - pose proof (step_batch_ok now e st h b) as S.
    destruct (step now e st) as [st1 out1]. specialize (IH st1).
    destruct (run_events evs st1) as [st2 out2]. cbn [snd] in *.
    intros I. apply in_app_or in I as [I | I]; auto.
Qed.

(** C10: every batch handed to a handler during a run (by a lifecycle
    signal, or at [connect]) is non-empty, its entries have types in the set
    nodeEnv, status, progress, operations, clear, stats, log, and the value
    of each status entry is one of Compiling, Invalidated, Failed,
    Success. *)
Theorem emitted_batches_closed
  (evs : list (Z * Event)) (st : State) (h : Handler) (b : Batch) :
  In (Call h b) (snd (run_events evs st)) ->
  b <> []
  /\ (forall e, In e b -> In (type e) event_types)
  /\ (forall e, In e b -> type e = "status" ->
      exists s, value e = Text s /\ In s status_values).
Proof.
  intros I. destruct (run_events_batch_ok evs st h b I) as (N & F).
  rewrite Forall_forall in F.
  split; [exact N |]. split; intros e Ie; now apply F.
Qed.

Lemma emitted_batches_closed_witness :
  failed_batch 20 (Some 10) <> []
  /\ (forall e, In e (failed_batch 20 (Some 10)) -> In (type e) event_types)
  /\ (forall e, In e (failed_batch 20 (Some 10)) -> type e = "status" ->
      exists s, value e = Text s /\ In s status_values).
Proof.
  apply (emitted_batches_closed
           [(0, Connect); (10, Hook compile); (20, Hook failed)]
           Sample.socket_state socket_emit_message (failed_batch 20 (Some 10))).
  right. right. left. reflexivity.
Defined.

(* ================================================================= *)
(** ** NODE_ENV *)

Example nodeEnv_absent :
  read_nodeEnv Sample.bare_compiler = JS.Normal (JS.Str "development").
Proof. reflexivity. Qed.

Example nodeEnv_quoted :
  read_nodeEnv Sample.quoted_compiler = JS.Normal (JS.Str "production").
Proof. reflexivity. Qed.

(** Without a value at the path, the default is parsed. *)
Lemma read_nodeEnv_default (c : Compiler) (dp : JS.Value) :
  definePlugin c = JS.Normal dp ->
  JS.baseGet ["definitions"; "process.env"; "NODE_ENV"] dp = JS.Undefined ->
  read_nodeEnv c = JS.Normal (JS.Str "development").
Proof.
  intros D G. unfold read_nodeEnv. rewrite D. cbn [JS.bind].
  unfold JS.getOr. rewrite G. reflexivity.
Qed.

(** A value that is not JSON makes [read_nodeEnv] throw, and [apply] with
    it, whatever the plugin. *)
Lemma apply_throws_with_nodeEnv (c : Compiler) (self : DashboardPlugin) (e : JS.Error) :
  read_nodeEnv c = JS.Throw e -> snd (apply c self) = JS.Throw e.
Proof. intros R. unfold apply. cbn [snd]. now rewrite R. Qed.

Example nodeEnv_bare_text :
  read_nodeEnv
    {| plugins := [Sample.define_plugin (JS.Str "production")]; pathinfo := JS.Undefined |}
  = JS.Throw JS.SyntaxError.
Proof. reflexivity. Qed.

(** C5 at its failing input: with the constant given as the single-quoted
    literal 'production', [JSON.parse] throws a SyntaxError and [apply] ends
    with it; the plugin is not set up and no default is used. *)
Theorem apply_throws_on_unparsable_NODE_ENV (self : DashboardPlugin) :
  snd (apply Sample.single_quoted_compiler self) = JS.Throw JS.SyntaxError.
Proof. apply apply_throws_with_nodeEnv. reflexivity. Qed.

(* ================================================================= *)
(** ** The constructor *)

(** X1: built from an options object, the plugin never holds an empty host
    or the port 0: a host or port that is missing or tests false is replaced
    by 127.0.0.1 or 9838, another one is kept. *)
Theorem constructor_host_port (o : OptionsObject) :
  (exists h, host (new_DashboardPlugin (OptionsObj o)) = Some h /\ h <> ""
     /\ (forall h', opt_host o = Some h' -> h' <> "" -> h = h')
     /\ (opt_host o = None \/ opt_host o = Some "" -> h = DEFAULT_HOST))
  /\ (exists n, port (new_DashboardPlugin (OptionsObj o)) = Some n /\ n <> 0
     /\ (forall n', opt_port o = Some n' -> n' <> 0 -> n = n')
     /\ (opt_port o = None \/ opt_port o = Some 0 -> n = DEFAULT_PORT)).
Proof.
  destruct o as [oh op r f]. cbn [new_DashboardPlugin host port opt_host opt_port].
  split; eexists; (split; [reflexivity |]).
  - unfold string_or. destruct oh as [h |].
    + destruct (String.eqb_spec h "") as [-> | N].
      * split; [discriminate |]. split; [intros h' [= <-] C; now elim C | reflexivity].
      * split; [exact N |]. split; [now intros h' [= <-] |].
        intros [C | [= C]]; [discriminate | contradiction].
    + split; [discriminate |]. split; [discriminate | reflexivity].
  - unfold number_or. destruct op as [n |].
    + destruct (Z.eqb_spec n 0) as [-> | N].
      * split; [discriminate |]. split; [intros n' [= <-] C; now elim C | reflexivity].
      * split; [exact N |]. split; [now intros n' [= <-] |].
        intros [C | [= C]]; [discriminate | contradiction].
    + split; [discriminate |]. split; [discriminate | reflexivity].
Qed.

Lemma constructor_host_port_witness :
  host (new_DashboardPlugin
          (OptionsObj {| opt_host := Some "10.0.0.7"; opt_port := Some 0;
                         opt_root := None; opt_handler := None |}))
  = Some "10.0.0.7".
Proof.
  destruct (proj1 (constructor_host_port
                     {| opt_host := Some "10.0.0.7"; opt_port := Some 0;
                        opt_root := None; opt_handler := None |}))
    as (h0 & E0 & _ & K & _).
  rewrite E0. f_equal. apply (K "10.0.0.7"); [reflexivity | discriminate].
Defined.

(** X2: however the plugin was constructed, a [cleanup] before any [apply]
    does nothing: there is no socket yet. *)
Theorem cleanup_before_apply (opts : Options) :
  cleanup (new_DashboardPlugin opts) = (new_DashboardPlugin opts, []).
Proof. apply cleanup_blocked. now destruct opts. Qed.

(* ================================================================= *)
(** ** Invariants of a run *)

Lemma do_cleanup_blocked (st : State) :
  cleanup_guard (this st) = false -> do_cleanup st = (st, []).
Proof.
  intros G. unfold do_cleanup. rewrite (cleanup_blocked _ G). now destruct st.
Qed.

Lemma do_cleanup_scope (st : State) : scope (fst (do_cleanup st)) = scope st.
Proof. reflexivity. Qed.

Lemma step_nodeEnv (now : Z) (e : Event) (st : State) :
  nodeEnv (scope (fst (step now e st))) = nodeEnv (scope st).
Proof.
  destruct e as [s | | m]; cbn [step].
  - now rewrite on_hook_scope.
  - now destruct (socket (this st)).
  - destruct (socket (this st)) as [s |]; [destruct (mode_once s) |]; reflexivity.
Qed.

(** What one action does to the socket: it stays where it is, and only
    [cleanup] touches [closed], only [mode] touches [mode_once]. *)
Lemma step_socket (now : Z) (e : Event) (st : State) :
  match socket (this st) with
  | Some s =>
      exists s', socket (this (fst (step now e st))) = Some s'
                 /\ url s' = url s /\ closed s' = closed s
  | None => socket (this (fst (step now e st))) = None
  end.
Proof.
  destruct e as [sg | | m]; cbn [step].
  - pose proof (on_hook_socket now sg st) as H.
    destruct (socket (this st)) as [s |]; eauto.
  - destruct (socket (this st)) as [s |] eqn:E; cbn; rewrite ?E; eauto.
  - destruct (socket (this st)) as [s |] eqn:E; [| exact E].
    destruct (mode_once s); cbn; rewrite ?E; eauto.
Qed.

Lemma do_cleanup_socket (st : State) :
  match socket (this st) with
  | Some s =>
      exists s', socket (this (fst (do_cleanup st))) = Some s'
                 /\ url s' = url s /\ (closed s = true -> closed s' = true)
                 /\ mode_once s' = mode_once s
  | None => do_cleanup st = (st, [])
  end.
Proof.
  destruct (socket (this st)) as [s |] eqn:E.
  - unfold do_cleanup, cleanup. rewrite E.
    destruct (watching (this st)); cbn; rewrite ?E; eauto.
  - apply do_cleanup_blocked. unfold cleanup_guard. rewrite E. apply andb_false_r.
Qed.

Lemma run_actions_cons (a : Action) (acts : list Action) (st : State) :
  run_actions (a :: acts) st =
  (fst (run_actions acts (fst (act a st))),
   (snd (act a st) ++ snd (run_actions acts (fst (act a st))))%list).
Proof.
  cbn [run_actions]. destruct (act a st) as [st1 out1].
  cbn [fst snd]. now destruct (run_actions acts st1).
Qed.

(** Induction over a run, for a property of states kept by every action. *)
Lemma run_actions_invariant (P : State -> Prop) :
  (forall a st, P st -> P (fst (act a st))) ->
  forall acts st, P st -> P (fst (run_actions acts st)).
Proof.
  intros K acts. induction acts as [| a acts IH]; intros st H; [exact H |].
  rewrite run_actions_cons. cbn [fst]. apply IH, K, H.
Qed.

Lemma run_actions_effects (P : State -> Prop) (Q : Effect -> Prop) :
  (forall a st, P st -> P (fst (act a st)) /\ Forall Q (snd (act a st))) ->
  forall acts st, P st -> Forall Q (snd (run_actions acts st)).
Proof.
  intros K acts. induction acts as [| a acts IH]; intros st H; [constructor |].
  rewrite run_actions_cons. cbn [snd]. apply Forall_app.
  destruct (K a st H) as (H1 & F). split; [exact F | now apply IH].
Qed.

Lemma on_hook_this (now : Z) (s : Signal) (st : State) :
  handler (this (fst (on_hook now s st))) = handler (this st)
  /\ minimal (this (fst (on_hook now s st))) = minimal (this st)
  /\ watching (this (fst (on_hook now s st)))
     = match s with
       | watch_run => true
       | run => false
       | _ => watching (this st)
       end.
Proof. destruct s; cbn; auto. Qed.

Lemma calls_of_map (h : Handler) (bs : list Batch) :
  Forall (fun e => exists b, e = Call h b) (map (Call h) bs).
Proof. induction bs as [| b bs IH]; constructor; eauto. Qed.

(** *** Handler mode *)

Lemma act_handler_mode (f : Fn) (a : Action) (st : State) :
  socket (this st) = None /\ handler (this st) = Some f
  /\ local_handler (scope st) = user f ->
  (socket (this (fst (act a st))) = None /\ handler (this (fst (act a st))) = Some f
   /\ local_handler (scope (fst (act a st))) = user f)
  /\ Forall (fun e => exists b, e = Call (user f) b) (snd (act a st)).
Proof.
  intros (S & H & L). destruct a as [now [sg | | m] |]; cbn [act step].
  - rewrite on_hook_socket, on_hook_scope, on_hook_effects, L.
    destruct (on_hook_this now sg st) as (-> & _). cbn [local_handler].
    repeat split; auto using calls_of_map.
  - rewrite S. cbn. auto.
  - rewrite S. cbn. auto.
  - pose proof (do_cleanup_socket st) as C. rewrite S in C. rewrite C. cbn. auto.
Qed.

(** X3: in handler mode nothing ever touches a transport.  [apply] opens
    no socket, and through every later run of hooks, socket events and
    [cleanup] calls there is still no socket, the caller's function is still
    the plugin's handler and the captured one, and every call that leaves
    the plugin is a call of that function. *)
Theorem handler_mode_never_uses_socket
  (c : Compiler) (opts : Options) (f : Fn) (st : State) (out : list Effect)
  (acts : list Action) :
  handler (new_DashboardPlugin opts) = Some f ->
  snd (apply c (new_DashboardPlugin opts)) = JS.Normal (st, out) ->
  out = []
  /\ socket (this (fst (run_actions acts st))) = None
  /\ handler (this (fst (run_actions acts st))) = Some f
  /\ local_handler (scope (fst (run_actions acts st))) = user f
  /\ Forall (fun e => exists b, e = Call (user f) b) (snd (run_actions acts st)).
Proof.
  intros H A.
  destruct (apply_handler_mode _ _ _ _ _ H A) as (env & _ & -> & ->).
  split; [reflexivity |].
  assert (socket (new_DashboardPlugin opts) = None) as S by now destruct opts.
  set (P := fun st : State =>
              socket (this st) = None /\ handler (this st) = Some f
              /\ local_handler (scope st) = user f).
  assert (P {| this := new_DashboardPlugin opts;
               scope := {| local_handler := user f; timer := None; nodeEnv := env |} |})
    as P0 by (repeat split; assumption).
  pose proof (run_actions_invariant P
                (fun a st H => proj1 (act_handler_mode f a st H)) acts _ P0) as (I1 & I2 & I3).
  repeat split; try assumption.
  exact (run_actions_effects P _ (act_handler_mode f) acts _ P0).
Qed.

Lemma handler_mode_never_uses_socket_witness :
  socket (this (fst (run_actions
                       [At 1 (Hook compile); At 2 Connect; Cleanup; At 3 (Hook failed)]
                       Sample.handler_state))) = None.
Proof.
  apply (proj1 (proj2 (handler_mode_never_uses_socket Sample.bare_compiler
           (OptionsFunction (UserFunction 0)) (UserFunction 0)
           Sample.handler_state []
           [At 1 (Hook compile); At 2 Connect; Cleanup; At 3 (Hook failed)]
           eq_refl eq_refl))).
Defined.

(** *** The watching flag *)

Lemma act_watching (a : Action) (st : State) :
  watching (this (fst (act a st))) = last_watching (watching (this st)) [a].
Proof.
  destruct a as [now [sg | | m] |]; cbn [act step last_watching].
  - destruct (on_hook_this now sg st) as (_ & _ & ->). now destruct sg.
  - now destruct (socket (this st)).
  - destruct (socket (this st)) as [s |]; [destruct (mode_once s) |]; reflexivity.
  - unfold do_cleanup, cleanup.
    destruct (watching (this st)) eqn:W, (socket (this st)); cbn; auto.
Qed.

Lemma last_watching_cons (w : bool) (a : Action) (acts : list Action) :
  last_watching w (a :: acts) = last_watching (last_watching w [a]) acts.
Proof. destruct a as [now [[] | | m] |]; reflexivity. Qed.

Lemma run_actions_watching (acts : list Action) (st : State) :
  watching (this (fst (run_actions acts st))) = last_watching (watching (this st)) acts.
Proof.
  revert st. induction acts as [| a acts IH]; intros st; [reflexivity |].
  rewrite run_actions_cons, last_watching_cons. cbn [fst].
  now rewrite IH, act_watching.
Qed.

Lemma last_watching_app (w : bool) (a b : list Action) :
  last_watching w (a ++ b) = last_watching (last_watching w a) b.
Proof.
  revert w. induction a as [| x a IH]; intros w; [reflexivity |].
  cbn [app]. rewrite last_watching_cons, IH. now rewrite <- last_watching_cons.
Qed.

Lemma last_watching_no_run (post : list Action) :
  (forall m, ~ In (At m (Hook run)) post) -> last_watching true post = true.
Proof.
  induction post as [| a post IH]; intros H; [reflexivity |].
  assert (forall m, ~ In (At m (Hook run)) post) as H' by (intros m I; apply (H m); now right).
  destruct a as [now [[] | | m] |]; cbn [last_watching]; auto.
  exfalso. apply (H now). now left.
Qed.

(** X4: once [watch-run] has fired and until the next [run], whatever else
    happens, the plugin is watching and a [cleanup] does nothing: the
    socket cannot be torn down in the middle of a watched build. *)
Theorem cleanup_blocked_after_watch_run
  (pre post : list Action) (n : Z) (st : State) :
  (forall m, ~ In (At m (Hook run)) post) ->
  watching (this (fst (run_actions (pre ++ At n (Hook watch_run) :: post) st))) = true
  /\ do_cleanup (fst (run_actions (pre ++ At n (Hook watch_run) :: post) st))
     = (fst (run_actions (pre ++ At n (Hook watch_run) :: post) st), []).
Proof.
  intros H.
  assert (watching (this (fst (run_actions (pre ++ At n (Hook watch_run) :: post) st)))
          = true) as W.
  { rewrite run_actions_watching, last_watching_app. cbn [last_watching].
    now apply last_watching_no_run. }
  split; [exact W |].
  apply do_cleanup_blocked. unfold cleanup_guard. now rewrite W.
Qed.

Lemma cleanup_blocked_after_watch_run_witness :
  do_cleanup (fst (run_actions ([At 0 Connect] ++ At 1 (Hook watch_run)
                                  :: [At 2 (Hook compile); Cleanup])
                     Sample.socket_state))
  = (fst (run_actions ([At 0 Connect] ++ At 1 (Hook watch_run)
                         :: [At 2 (Hook compile); Cleanup])
            Sample.socket_state), []).
Proof.
  apply (proj2 (cleanup_blocked_after_watch_run [At 0 Connect]
                  [At 2 (Hook compile); Cleanup] 1 Sample.socket_state
                  (fun m I => match I with
                              | or_introl E => ltac:(discriminate E)
                              | or_intror (or_introl E) => ltac:(discriminate E)
                              | or_intror (or_intror F) => match F with end
                              end))).
Defined.

(** *** The socket *)

Lemma act_socket (a : Action) (st : State) (s : Socket) :
  socket (this st) = Some s ->
  exists s', socket (this (fst (act a st))) = Some s'
             /\ url s' = url s
             /\ (closed s = true -> closed s' = true)
             /\ (a <> Cleanup -> closed s' = closed s).
Proof.
  intros E. destruct a as [now e |]; cbn [act].
  - pose proof (step_socket now e st) as H. rewrite E in H.
    destruct H as (s' & H1 & H2 & H3). exists s'. rewrite H3. auto.
  - pose proof (do_cleanup_socket st) as H. rewrite E in H.
    destruct H as (s' & H1 & H2 & H3 & _). exists s'.
    repeat split; auto. intros N. now elim N.
Qed.

Lemma act_no_socket (a : Action) (st : State) :
  socket (this st) = None -> socket (this (fst (act a st))) = None.
Proof.
  intros E. destruct a as [now e |]; cbn [act].
  - pose proof (step_socket now e st) as H. now rewrite E in H.
  - pose proof (do_cleanup_socket st) as H. rewrite E in H. now rewrite H.
Qed.

(** X5: after [apply], no hook, socket event or [cleanup] creates or
    replaces the socket, and none reopens it: the plugin keeps pointing at
    the same address, only [cleanup] can close the socket, and a closed
    socket stays closed. *)
Theorem socket_never_reopened (acts : list Action) (st : State) (s : Socket) :
  socket (this st) = Some s ->
  exists s', socket (this (fst (run_actions acts st))) = Some s'
             /\ url s' = url s
             /\ (closed s = true -> closed s' = true)
             /\ (~ In Cleanup acts -> closed s' = closed s).
Proof.
  revert st s. induction acts as [| a acts IH]; intros st s E.
  - exists s. auto.
  - rewrite run_actions_cons. cbn [fst].
    destruct (act_socket a st s E) as (s1 & E1 & U1 & C1 & N1).
    destruct (IH _ s1 E1) as (s2 & E2 & U2 & C2 & N2).
    exists s2. split; [exact E2 |]. split; [congruence |]. split; [auto |].
    intros N. rewrite N2, N1; auto.
    + intros ->. apply N. now left.
    + intros I. apply N. now right.
Qed.

Lemma socket_never_reopened_witness :
  exists s', socket (this (fst (run_actions
                                  [Cleanup; At 1 Connect; At 2 (Hook compile)]
                                  Sample.socket_state))) = Some s'
             /\ url s' = "http://127.0.0.1:9838".
Proof.
  destruct (socket_never_reopened [Cleanup; At 1 Connect; At 2 (Hook compile)]
              Sample.socket_state
              {| url := "http://127.0.0.1:9838"; closed := false; mode_once := true |}
              eq_refl) as (s' & E & U & _).
  exists s'. split; [exact E | exact U].
Defined.

(** *** The captured handler *)

Lemma act_local_handler (a : Action) (st : State) :
  local_handler (scope (fst (act a st))) =
  match socket (this st) with
  | Some _ => if is_connect a then socket_emit_message else local_handler (scope st)
  | None => local_handler (scope st)
  end.
Proof.
  destruct a as [now [sg | | m] |]; cbn [act step is_connect].
  - rewrite on_hook_scope. now destruct (socket (this st)).
  - now destruct (socket (this st)).
  - destruct (socket (this st)) as [s |]; [destruct (mode_once s) |]; reflexivity.
  - now destruct (socket (this st)).
Qed.

(** X6: the handler the callbacks call depends on one thing only, whether
    the socket has connected: with a socket, it is the socket's emit once a
    [connect] has fired, whatever [cleanup] calls and other events come
    before or after, and the handler captured by [apply] until then; without
    a socket it never changes. *)
Theorem captured_handler_after_run (acts : list Action) (st : State) :
  local_handler (scope (fst (run_actions acts st))) =
  match socket (this st) with
  | Some _ =>
      if existsb is_connect acts then socket_emit_message else local_handler (scope st)
  | None => local_handler (scope st)
  end.
Proof.
  revert st. induction acts as [| a acts IH]; intros st.
  - cbn. now destruct (socket (this st)).
  - rewrite run_actions_cons. cbn [fst existsb]. rewrite IH, act_local_handler.
    destruct (socket (this st)) as [s |] eqn:E.
    + destruct (act_socket a st s E) as (s1 & -> & _).
      destruct (is_connect a); cbn [orb]; [now destruct (existsb is_connect acts) | reflexivity].
    + now rewrite (act_no_socket a st E).
Qed.

(** *** The display mode *)

Lemma act_minimal_frozen (a : Action) (st : State) :
  (socket (this st) = None
   \/ exists s, socket (this st) = Some s /\ mode_once s = false) ->
  (socket (this (fst (act a st))) = None
   \/ exists s, socket (this (fst (act a st))) = Some s /\ mode_once s = false)
  /\ minimal (this (fst (act a st))) = minimal (this st).
Proof.
  intros [E | (s & E & M)].
  - split; [left; now apply act_no_socket |].
    destruct a as [now [sg | | m] |]; cbn [act step].
    + now destruct (on_hook_this now sg st) as (_ & -> & _).
    + now rewrite E.
    + now rewrite E.
    + pose proof (do_cleanup_socket st) as H. rewrite E in H. now rewrite H.
  - destruct a as [now [sg | | m] |]; cbn [act step].
    + rewrite on_hook_socket. destruct (on_hook_this now sg st) as (_ & -> & _). eauto.
    + rewrite E. cbn. eauto.
    + rewrite E, M. cbn. eauto.
    + unfold do_cleanup, cleanup. rewrite E.
      destruct (watching (this st)); cbn; rewrite ?E; eauto.
Qed.

Lemma run_actions_minimal_frozen (acts : list Action) (st : State) :
  (socket (this st) = None
   \/ exists s, socket (this st) = Some s /\ mode_once s = false) ->
  minimal (this (fst (run_actions acts st))) = minimal (this st).
Proof.
  revert st. induction acts as [| a acts IH]; intros st H; [reflexivity |].
  rewrite run_actions_cons. cbn [fst].
  destruct (act_minimal_frozen a st H) as (H1 & <-). now apply IH.
Qed.

Lemma act_mode_pending (a : Action) (st : State) (s : Socket) :
  socket (this st) = Some s -> mode_once s = true ->
  match a with
  | At _ (Mode m) =>
      minimal (this (fst (act a st))) = Some m
      /\ exists s', socket (this (fst (act a st))) = Some s' /\ mode_once s' = false
  | _ =>
      minimal (this (fst (act a st))) = minimal (this st)
      /\ exists s', socket (this (fst (act a st))) = Some s' /\ mode_once s' = true
  end.
Proof.
  intros E M. destruct a as [now [sg | | m] |]; cbn [act step].
  - rewrite on_hook_socket. destruct (on_hook_this now sg st) as (_ & -> & _). eauto.
  - rewrite E. cbn. eauto.
  - rewrite E, M. cbn. eauto.
  - unfold do_cleanup, cleanup. rewrite E.
    destruct (watching (this st)); cbn; rewrite ?E; eauto.
Qed.

(** X7: the [mode] listener is a [once] listener: with a socket fresh from
    [apply], [minimal] ends as the argument of the first [mode] event of the
    run, later [mode] events are ignored, and nothing else (no hook, no
    [connect], no [cleanup]) changes it. *)
Theorem minimal_is_first_mode (acts : list Action) (st : State) (s : Socket) :
  socket (this st) = Some s -> mode_once s = true ->
  minimal (this (fst (run_actions acts st))) =
  match first_mode acts with
  | Some m => Some m
  | None => minimal (this st)
  end.
Proof.
  revert st s. induction acts as [| a acts IH]; intros st s E M; [reflexivity |].
  rewrite run_actions_cons. cbn [fst].
  pose proof (act_mode_pending a st s E M) as H.
  destruct a as [now [sg | | m] |]; cbn [first_mode].
  - destruct H as (Hm & s' & E' & M'). rewrite (IH _ s' E' M'). now rewrite Hm.
  - destruct H as (Hm & s' & E' & M'). rewrite (IH _ s' E' M'). now rewrite Hm.
  - destruct H as (Hm & s' & E' & M').
    rewrite run_actions_minimal_frozen; [exact Hm | right; eauto].
  - destruct H as (Hm & s' & E' & M'). rewrite (IH _ s' E' M'). now rewrite Hm.
Qed.

Lemma minimal_is_first_mode_witness :
  minimal (this (fst (run_actions
                        [At 0 Connect; At 1 (Mode true); Cleanup; At 2 (Mode false)]
                        Sample.socket_state))) = Some true.
Proof.
  apply (minimal_is_first_mode
           [At 0 Connect; At 1 (Mode true); Cleanup; At 2 (Mode false)]
           Sample.socket_state
           {| url := "http://127.0.0.1:9838"; closed := false; mode_once := true |}
           eq_refl eq_refl).
Defined.

(** *** The nodeEnv batch *)

Lemma act_nodeEnv (a : Action) (st : State) :
  nodeEnv (scope (fst (act a st))) = nodeEnv (scope st).
Proof. destruct a as [now e |]; [apply step_nodeEnv | reflexivity]. Qed.

Lemma act_nodeEnv_batches (a : Action) (st : State) :
  filter is_nodeEnv_batch (delivered (snd (act a st))) =
  match socket (this st) with
  | Some _ => if is_connect a then [nodeEnv_batch (nodeEnv (scope st))] else []
  | None => []
  end.
Proof.
  destruct a as [now [sg | | m] |]; cbn [act step is_connect].
  - assert (filter is_nodeEnv_batch (delivered (snd (on_hook now sg st))) = []) as ->
      by (destruct sg; cbn [on_hook snd]; destruct (local_handler (scope st)); reflexivity).
    now destruct (socket (this st)).
  - now destruct (socket (this st)).
  - destruct (socket (this st)) as [s |]; [destruct (mode_once s) |]; reflexivity.
  - unfold do_cleanup, cleanup.
    destruct (watching (this st)), (socket (this st)); reflexivity.
Qed.

(** X8: the nodeEnv batch is sent at [connect] and never otherwise: in any
    run, the nodeEnv batches delivered are one per [connect] event (none
    without a socket), each carrying the value read once by [apply]. *)
Theorem nodeEnv_batches_at_connect (acts : list Action) (st : State) :
  filter is_nodeEnv_batch (delivered (snd (run_actions acts st))) =
  match socket (this st) with
  | Some _ =>
      repeat (nodeEnv_batch (nodeEnv (scope st))) (List.length (filter is_connect acts))
  | None => []
  end.
Proof.
  revert st. induction acts as [| a acts IH]; intros st.
  - cbn. now destruct (socket (this st)).
  - rewrite run_actions_cons. cbn [snd].
    rewrite delivered_app, filter_app, IH, act_nodeEnv_batches, act_nodeEnv.
    destruct (socket (this st)) as [s |] eqn:E.
    + destruct (act_socket a st s E) as (s1 & -> & _).
      cbn [filter]. now destruct (is_connect a).
    + now rewrite (act_no_socket a st E).
Qed.

(** *** One call per signal *)

Lemma batches_of_length (t : option Z) (sigs : list (Z * Signal)) :
  List.length (batches_of t sigs) = List.length (filter (fun p => emits (snd p)) sigs).
Proof.
  revert t. induction sigs as [| [now s] sigs IH]; intros t; [reflexivity |].
  cbn [batches_of filter snd]. rewrite List.length_app, IH. now destruct s.
Qed.

(** X9: a run of lifecycle signals makes exactly one handler call for each
    [compile], [progress], [invalid], [failed] and [done], none for
    [watch-run] and [run], and all of them to the one captured handler. *)
Theorem one_call_per_signal (sigs : list (Z * Signal)) (st : State) :
  List.length (snd (run_events (hooks sigs) st))
  = List.length (filter (fun p => emits (snd p)) sigs)
  /\ Forall (fun e => exists b, e = Call (local_handler (scope st)) b)
       (snd (run_events (hooks sigs) st)).
Proof.
  rewrite run_hooks_trace. split.
  - now rewrite List.length_map, batches_of_length.
  - apply calls_of_map.
Qed.

(* ================================================================= *)
(** ** More on the timer label *)

(** X10: from one second on the label counts whole seconds, never zero of
    them, and the count is within half a second of the elapsed time. *)
Theorem seconds_label_bound (now t : Z) :
  now - t >= 1000 ->
  exists r,
    getTimeMessage now (Some t) = " (" ++ JS.string_of_Z r ++ "s" ++ ")"
    /\ 1 <= r
    /\ 1000 * r - 500 <= now - t < 1000 * r + 500.
Proof.
  intros H. exists (JS.Math_round (inject_Z (now - t) / inject_Z ONE_SECOND)).
  pose proof (Math_round_nearest (now - t)) as B. cbv zeta in B.
  split; [| split; [lia | exact B]].
  unfold getTimeMessage, elapsed, timeText.
  destruct (Z.geb_spec (now - t) ONE_SECOND) as [G | G];
    [| unfold ONE_SECOND in G; lia].
  now rewrite append_assoc.
Qed.

Lemma seconds_label_bound_witness :
  exists r, getTimeMessage 2499 (Some 1000) = " (" ++ JS.string_of_Z r ++ "s" ++ ")"
            /\ 1 <= r /\ 1000 * r - 500 <= 2499 - 1000 < 1000 * r + 500.
Proof. apply (seconds_label_bound 2499 1000). discriminate. Defined.

(* ================================================================= *)
(** ** More on getProjectRoot *)

(** X11: without a root option (missing, or the empty string, which tests
    false), a path that [getProjectRoot] returns has a manifest: it is the
    bundle context with a manifest that loads under it, or the working
    directory with one that loads there. *)
Theorem getProjectRoot_sound
  (require_ : string -> option JS.Value) (path_join : string -> string -> string)
  (path_resolve : string -> string) (process_cwd : string)
  (self : DashboardPlugin) (bundle : option Bundle) (p : string) :
  root self = None \/ root self = Some "" ->
  getProjectRoot require_ path_join path_resolve process_cwd self bundle = Some p ->
  context_matches require_ path_join bundle p
  \/ (p = process_cwd /\ loads require_ (path_resolve "package.json") = true).
Proof.
  intros R. unfold getProjectRoot.
  assert (is_set (root self) = false) as -> by (destruct R as [-> | ->]; reflexivity).
  destruct (try_context require_ path_join bundle) as [c |] eqn:E.
  - intros [= <-]. left. now apply try_context_matches.
  - unfold try_cwd.
    destruct (loads require_ (path_resolve "package.json")); [| discriminate].
    intros [= <-]. now right.
Qed.

Lemma getProjectRoot_sound_witness :
  context_matches RootExample.require_ RootExample.path_join
    (RootExample.bundle_at "/b") "/b"
  \/ ("/b" = "/w"
      /\ loads RootExample.require_ (RootExample.path_resolve "package.json") = true).
Proof.
  apply (getProjectRoot_sound RootExample.require_ RootExample.path_join
           RootExample.path_resolve "/w" (RootExample.with_root (Some ""))
           (RootExample.bundle_at "/b") "/b").
  - right. reflexivity.
  - reflexivity.
Defined.

(** X12: [getProjectRoot] returns null exactly when there is no usable
    root option, the bundle context does not match and no manifest loads
    from the working directory. *)
Theorem getProjectRoot_null_iff
  (require_ : string -> option JS.Value) (path_join : string -> string -> string)
  (path_resolve : string -> string) (process_cwd : string)
  (self : DashboardPlugin) (bundle : option Bundle) :
  getProjectRoot require_ path_join path_resolve process_cwd self bundle = None
  <-> (root self = None \/ root self = Some "")
      /\ (forall c, ~ context_matches require_ path_join bundle c)
      /\ loads require_ (path_resolve "package.json") = false.
Proof.
  unfold getProjectRoot, try_cwd. split.
  - destruct (root self) as [r |] eqn:R; cbn [is_set].
    + destruct (String.eqb_spec r "") as [-> | N]; cbn [negb]; [| discriminate].
      destruct (try_context require_ path_join bundle) as [c |] eqn:E; [discriminate |].
      destruct (loads require_ (path_resolve "package.json")); [discriminate |].
      intros _. split; [now right |]. split; [| reflexivity].
      intros c M. apply try_context_matches in M. congruence.
    + destruct (try_context require_ path_join bundle) as [c |] eqn:E; [discriminate |].
      destruct (loads require_ (path_resolve "package.json")); [discriminate |].
      intros _. split; [now left |]. split; [| reflexivity].
      intros c M. apply try_context_matches in M. congruence.
  - intros (R & M & L).
    assert (is_set (root self) = false) as -> by (destruct R as [-> | ->]; reflexivity).
    now rewrite (try_context_none _ _ _ M), L.
Qed.

Lemma getProjectRoot_null_iff_witness :
  (root (RootExample.with_root None) = None \/ root (RootExample.with_root None) = Some "")
  /\ (forall c, ~ context_matches RootExample.require_ RootExample.path_join None c)
  /\ loads RootExample.require_ (RootExample.path_resolve "package.json") = false.
Proof.
  apply (proj1 (getProjectRoot_null_iff RootExample.require_ RootExample.path_join
                  RootExample.path_resolve "/w" (RootExample.with_root None) None)).
  reflexivity.
Defined.

(* ================================================================= *)
(** ** The options of the stats report *)



(* ================================================================= *)
(** ** More on NODE_ENV *)

Lemma filter_by_constructor_nullish (name : string) (ps : list JS.Value) :
  existsb nullish ps = true ->
  filter_by_constructor name ps = JS.Throw JS.TypeError.
Proof.
  induction ps as [| p ps IH]; cbn [existsb filter_by_constructor]; [discriminate |].
  destruct (nullish p) eqn:N; cbn [orb].
  - intros _. destruct p; try discriminate N; reflexivity.
  - intros H. rewrite (IH H). destruct p; try discriminate N; reflexivity.
Qed.

Lemma filter_by_constructor_ok (name : string) (ps : list JS.Value) :
  existsb nullish ps = false ->
  filter_by_constructor name ps = JS.Normal (filter (has_constructor name) ps).
Proof.
  induction ps as [| p ps IH]; cbn [existsb filter_by_constructor filter]; [reflexivity |].
  intros H. apply orb_false_iff in H as (N & H). rewrite (IH H).
  unfold has_constructor.
  destruct p; try discriminate N; cbn [JS.bind JS.constructor_name]; reflexivity.
Qed.

Lemma filter_first (name : string) (pre post : list JS.Value) (dp : JS.Value) :
  existsb (has_constructor name) pre = false ->
  has_constructor name dp = true ->
  hd JS.Undefined (filter (has_constructor name) (pre ++ dp :: post)) = dp.
Proof.
  intros P D. induction pre as [| p pre IH]; cbn [app filter existsb] in *.
  - now rewrite D.
  - apply orb_false_iff in P as (-> & P). auto.
Qed.

Lemma filter_none (name : string) (ps : list JS.Value) :
  existsb (has_constructor name) ps = false ->
  filter (has_constructor name) ps = [].
Proof.
  induction ps as [| p ps IH]; cbn [filter existsb]; [reflexivity |].
  intros H. apply orb_false_iff in H as (-> & H). auto.
Qed.

(** X14: an [undefined] or [null] entry anywhere in the compiler's plugin
    list makes [apply] throw a TypeError, whatever the plugin's options:
    the filter reads [constructor] of every entry. *)
Theorem apply_throws_on_nullish_plugin
  (c : Compiler) (self : DashboardPlugin) (p : JS.Value) :
  In p (plugins c) -> nullish p = true ->
  snd (apply c self) = JS.Throw JS.TypeError.
Proof.
  intros I N. apply apply_throws_with_nodeEnv.
  unfold read_nodeEnv, definePlugin.
  rewrite filter_by_constructor_nullish; [reflexivity |].
  apply existsb_exists. eauto.
Qed.

Lemma apply_throws_on_nullish_plugin_witness :
  snd (apply (compiler_with [Sample.define_plugin (JS.Str "1"); JS.Undefined])
         Sample.handler_plugin) = JS.Throw JS.TypeError.
Proof.
  apply (apply_throws_on_nullish_plugin
           (compiler_with [Sample.define_plugin (JS.Str "1"); JS.Undefined])
           Sample.handler_plugin JS.Undefined).
  - right. left. reflexivity.
  - reflexivity.
Defined.

(** X15: only the first plugin whose constructor is named DefinePlugin is
    consulted: the plugins before it and after it, and any later
    DefinePlugin, do not change the value read. *)
Theorem nodeEnv_first_DefinePlugin
  (pre post : list JS.Value) (dp : JS.Value) :
  existsb nullish (pre ++ dp :: post) = false ->
  existsb (has_constructor "DefinePlugin") pre = false ->
  has_constructor "DefinePlugin" dp = true ->
  read_nodeEnv (compiler_with (pre ++ dp :: post)) = read_nodeEnv (compiler_with [dp]).
Proof.
  intros N P D. unfold read_nodeEnv, definePlugin, compiler_with. cbn [plugins].
  rewrite (filter_by_constructor_ok _ _ N). cbn [JS.bind].
  rewrite (filter_first _ pre post dp P D).
  rewrite filter_by_constructor_ok.
  - cbn [JS.bind filter]. now rewrite D.
  - cbn [existsb]. rewrite existsb_app in N. apply orb_false_iff in N as (_ & N).
    cbn [existsb] in N. apply orb_false_iff in N as (-> & _). reflexivity.
Qed.

Lemma nodeEnv_first_DefinePlugin_witness :
  read_nodeEnv
    (compiler_with ([JS.Object "ProgressPlugin" []]
                    ++ Sample.define_plugin JS.Undefined
                    :: [Sample.define_plugin (JS.Str "true")]))
  = read_nodeEnv (compiler_with [Sample.define_plugin JS.Undefined]).
Proof.
  apply (nodeEnv_first_DefinePlugin [JS.Object "ProgressPlugin" []]
           [Sample.define_plugin (JS.Str "true")] (Sample.define_plugin JS.Undefined)
           eq_refl eq_refl eq_refl).
Defined.

(** X16: without a plugin whose constructor is named DefinePlugin, the node
    env is development. *)
Theorem nodeEnv_without_DefinePlugin (ps : list JS.Value) :
  existsb nullish ps = false ->
  existsb (has_constructor "DefinePlugin") ps = false ->
  read_nodeEnv (compiler_with ps) = JS.Normal (JS.Str "development").
Proof.
  intros N P. unfold read_nodeEnv, definePlugin, compiler_with. cbn [plugins].
  rewrite (filter_by_constructor_ok _ _ N), (filter_none _ _ P). reflexivity.
Qed.

Lemma nodeEnv_without_DefinePlugin_witness :
  read_nodeEnv (compiler_with [JS.Object "ProgressPlugin" []; JS.Boolean false])
  = JS.Normal (JS.Str "development").
Proof.
  apply (nodeEnv_without_DefinePlugin
           [JS.Object "ProgressPlugin" []; JS.Boolean false] eq_refl eq_refl).
Defined.

(** X17: the constant is looked up under the two keys [process.env] and
    [NODE_ENV], one inside the other.  Definitions without a [process.env]
    key of their own, such as those that spell the constant with the single
    flat key process.env.NODE_ENV, give development. *)
Theorem nodeEnv_needs_nested_key (c : string) (defs : list (string * JS.Value)) :
  JS.assoc "process.env" defs = JS.Undefined ->
  read_nodeEnv
    (compiler_with [JS.Object "DefinePlugin" [("definitions", JS.Object c defs)]])
  = JS.Normal (JS.Str "development").
Proof.
  intros H. apply (read_nodeEnv_default _
    (JS.Object "DefinePlugin" [("definitions", JS.Object c defs)])); [reflexivity |].
  cbn. now rewrite H.
Qed.

Lemma nodeEnv_needs_nested_key_witness :
  read_nodeEnv
    (compiler_with
       [JS.Object "DefinePlugin"
          [("definitions",
            JS.Object "Object" [("process.env.NODE_ENV", JS.Str "true")])]])
  = JS.Normal (JS.Str "development").
Proof.
  apply (nodeEnv_needs_nested_key "Object" [("process.env.NODE_ENV", JS.Str "true")]).
  reflexivity.
Defined.

Lemma read_nodeEnv_defined (v : JS.Value) :
  v <> JS.Undefined ->
  read_nodeEnv (compiler_with [Sample.define_plugin v]) = JS.JSON_parse v.
Proof.
  intros N. unfold read_nodeEnv. cbn. destruct v; try reflexivity. now elim N.
Qed.

(** X18: the default replaces [undefined] only.  Any other value found
    under the keys, also one that tests false ([null], [false], 0, the
    empty string), goes to [JSON.parse] as it is. *)
Theorem nodeEnv_found_value (v : JS.Value) :
  v <> JS.Undefined ->
  read_nodeEnv (compiler_with [Sample.define_plugin v]) = JS.JSON_parse v.
Proof. exact (read_nodeEnv_defined v). Qed.

Lemma nodeEnv_found_value_witness :
  read_nodeEnv (compiler_with [Sample.define_plugin (JS.Str "")])
  = JS.Throw JS.SyntaxError.
Proof.
  exact (nodeEnv_found_value (JS.Str "") ltac:(discriminate)).
Defined.

(** *** String and number constants *)

Lemma plain_char_tests (c : ascii) :
  plain_char c = true ->
  (N_of_ascii c =? 34)%N = false /\ (N_of_ascii c =? 92)%N = false
  /\ (N_of_ascii c <? 32)%N = false.
Proof.
  unfold plain_char. intros H.
  apply andb_true_iff in H as (H & L). apply andb_true_iff in H as (Q & B).
  apply negb_true_iff in Q, B. repeat split; try assumption.
  apply N.ltb_ge. now apply N.leb_le.
Qed.

Lemma scan_string_plain (s rest : string) :
  plain s = true ->
  JS.scan_string (s ++ JS.dquote ++ rest) = JS.Normal (s, rest).
Proof.
  induction s as [| c s IH]; intros P; [reflexivity |].
  cbn [plain] in P. apply andb_true_iff in P as (C & P).
  destruct (plain_char_tests c C) as (Q & B & L).
  cbn [append JS.scan_string]. rewrite Q, B, L, (IH P). reflexivity.
Qed.

Lemma JSON_parse_text_quoted (body : string) :
  JS.JSON_parse_text (String (ascii_of_N 34) body) =
  JS.bind (JS.scan_string body) (fun r =>
  match JS.skip_ws (snd r) with
  | EmptyString => JS.Normal (JS.Str (fst r))
  | String _ _ => JS.Throw JS.SyntaxError
  end).
Proof.
  unfold JS.JSON_parse_text.
  change (JS.skip_ws (String (ascii_of_N 34) body)) with (String (ascii_of_N 34) body).
  change (JS.scan_value (String (ascii_of_N 34) body))
    with (JS.bind (JS.scan_string body) (fun r => JS.Normal (JS.Str (fst r), snd r))).
  now destruct (JS.scan_string body).
Qed.

(** X19: a constant written as a JSON string literal of plain characters
    (no double quote, no backslash, no control character) is read back as
    the string between the quotes. *)
Theorem nodeEnv_string_literal (s : string) :
  plain s = true ->
  read_nodeEnv (compiler_with [Sample.define_plugin (JS.Str (JS.dquote ++ s ++ JS.dquote))])
  = JS.Normal (JS.Str s).
Proof.
  intros P. rewrite read_nodeEnv_defined by discriminate.
  unfold JS.JSON_parse, JS.ToString.
  change (JS.dquote ++ s ++ JS.dquote)
    with (String (ascii_of_N 34) (s ++ JS.dquote ++ "")).
  rewrite JSON_parse_text_quoted, (scan_string_plain s "" P). reflexivity.
Qed.

Lemma nodeEnv_string_literal_witness :
  read_nodeEnv
    (compiler_with [Sample.define_plugin (JS.Str (JS.dquote ++ "staging" ++ JS.dquote))])
  = JS.Normal (JS.Str "staging").
Proof. apply (nodeEnv_string_literal "staging"). reflexivity. Defined.

Lemma scan_digits_uint (d : Decimal.uint) (acc : Z) :
  JS.scan_digits acc (NilEmpty.string_of_uint d) = (uint_value acc d, "").
Proof.
  revert acc. induction d; intros acc; cbn [NilEmpty.string_of_uint uint_value];
    [reflexivity | ..];
    match goal with
    | |- JS.scan_digits _ (String ?c ?r) = _ =>
        change (JS.scan_digits acc (String c r))
          with (JS.scan_digits (10 * acc + (Z.of_N (N_of_ascii c) - 48)) r)
    end; apply IHd.
Qed.

Lemma uint_value_acc (d : Decimal.uint) (p : positive) :
  uint_value (Z.pos p) d = Z.pos (Pos.of_uint_acc d p).
Proof.
  revert p. induction d; intros p; cbn [uint_value Pos.of_uint_acc];
    [reflexivity | ..];
    rewrite <- IHd; f_equal; lia.
Qed.

Lemma uint_value_of_uint (d : Decimal.uint) :
  uint_value 0 d = Z.of_N (Pos.of_uint d).
Proof.
  induction d; cbn [uint_value Pos.of_uint]; [reflexivity | exact IHd | ..];
    cbn [Z.mul Z.add Z.of_N]; apply uint_value_acc.
Qed.

(** A printed positive number has no leading zero. *)
Lemma to_uint_head (p : positive) :
  Pos.to_uint p <> Decimal.Nil /\ forall l, Pos.to_uint p <> Decimal.D0 l.
Proof.
  split; [apply DecimalPos.Unsigned.to_uint_nonnil |].
  intros l E.
  assert (l <> Decimal.Nil) as NN.
  { intros ->. now apply (DecimalPos.Unsigned.to_uint_nonzero p). }
  pose proof (DecimalPos.Unsigned.to_of (Pos.to_uint p)) as T.
  rewrite DecimalPos.Unsigned.of_to in T. cbn [N.to_uint] in T.
  rewrite E, DecimalFacts.unorm_D0 in T.
  pose proof (DecimalFacts.nb_digits_unorm l NN) as B.
  rewrite <- T in B. cbn [Decimal.nb_digits] in B. lia.
Qed.

Lemma parse_uint_text (d : Decimal.uint) :
  d <> Decimal.Nil -> (forall l, d <> Decimal.D0 l) ->
  0 < uint_value 0 d <= 2 ^ 53 ->
  JS.JSON_parse_text (NilEmpty.string_of_uint d) = JS.Normal (JS.Number (uint_value 0 d))
  /\ JS.JSON_parse_text (String "-" (NilEmpty.string_of_uint d))
     = JS.Normal (JS.Number (- uint_value 0 d)).
Proof.
  intros NN NZ B.
  assert ((2 ^ 53 <? uint_value 0 d) = false) as L by (apply Z.ltb_ge; lia).
  assert ((uint_value 0 d =? 0) = false) as Z0 by (apply Z.eqb_neq; lia).
  destruct d; try (now elim NN); try (now elim (NZ d));
    cbn [NilEmpty.string_of_uint uint_value Z.mul Z.add] in *;
    unfold JS.JSON_parse_text;
    cbn [JS.skip_ws JS.is_ws JS.scan_value JS.scan_number JS.scan_int JS.digit_of
         JS.scan_literal JS.bind N_of_ascii N_of_digits N.eqb N.leb N.compare
         Pos.eqb Pos.compare Pos.compare_cont orb andb N.add N.mul Pos.add Pos.mul
         Pos.succ Z.of_N Z.sub Z.add Z.opp Z.pos_sub Z.succ_double Z.pred_double
         Z.double Pos.pred_double fst snd];
    rewrite ?scan_digits_uint; cbn [JS.bind JS.starts_fraction fst snd];
    rewrite ?L, ?Z0; cbn [andb JS.skip_ws fst snd]; split; reflexivity.
Qed.

Lemma string_of_uint_nonnil (d : Decimal.uint) :
  d <> Decimal.Nil -> NilZero.string_of_uint d = NilEmpty.string_of_uint d.
Proof. destruct d; [intros N; now elim N | reflexivity ..]. Qed.

Lemma parse_printed_positive (p : positive) :
  Z.pos p <= 2 ^ 53 ->
  JS.JSON_parse_text (JS.string_of_Z (Z.pos p)) = JS.Normal (JS.Number (Z.pos p))
  /\ JS.JSON_parse_text (JS.string_of_Z (Z.neg p)) = JS.Normal (JS.Number (Z.neg p)).
Proof.
  intros B. destruct (to_uint_head p) as (NN & NZ).
  assert (uint_value 0 (Pos.to_uint p) = Z.pos p) as V
    by (now rewrite uint_value_of_uint, DecimalPos.Unsigned.of_to).
  unfold JS.string_of_Z. cbn [Z.to_int NilZero.string_of_int].
  rewrite (string_of_uint_nonnil _ NN).
  destruct (parse_uint_text (Pos.to_uint p) NN NZ) as (P1 & P2); [rewrite V; lia |].
  rewrite P1, P2, V. split; reflexivity.
Qed.

(** X20: a constant that is [null], a boolean or an integer of at most
    2^53 in absolute value is passed through unchanged: printing it and
    parsing the text gives the value back. *)
Theorem nodeEnv_scalar_constant (v : JS.Value) :
  match v with
  | JS.Null | JS.Boolean _ => True
  | JS.Number z => - 2 ^ 53 <= z <= 2 ^ 53
  | _ => False
  end ->
  read_nodeEnv (compiler_with [Sample.define_plugin v]) = JS.Normal v.
Proof.
  intros H. destruct v as [| | b | z | s | c props]; try contradiction;
    rewrite read_nodeEnv_defined by discriminate.
  - reflexivity.
  - now destruct b.
  - unfold JS.JSON_parse, JS.ToString. destruct z as [| p | p].
    + reflexivity.
    + apply (parse_printed_positive p). lia.
    + apply (parse_printed_positive p). lia.
Qed.

Lemma nodeEnv_scalar_constant_witness :
  read_nodeEnv (compiler_with [Sample.define_plugin (JS.Number (-42))])
  = JS.Normal (JS.Number (-42)).
Proof.
  apply (nodeEnv_scalar_constant (JS.Number (-42))).
  split; discriminate.
Defined.

(* ================================================================= *)
(** ** Teardown and a new start *)

(** X21: [apply] after a [cleanup] that went through starts over: since
    [cleanup] left the handler null, [apply] opens a new socket to the same
    address, not closed, with its [mode] listener registered, and the
    handler it captures is the no-op again until that socket connects. *)
Theorem apply_after_cleanup (c : Compiler) (self : DashboardPlugin) (env : JS.Value) :
  cleanup_guard self = true ->
  read_nodeEnv c = JS.Normal env ->
  exists st,
    snd (apply c (fst (cleanup self))) = JS.Normal (st, [NewSocket (socket_url self)])
    /\ socket (this st)
       = Some {| url := socket_url self; closed := false; mode_once := true |}
    /\ scope st = {| local_handler := noop; timer := None; nodeEnv := env |}.
Proof.
  intros G R. apply cleanup_guard_spec in G as (W & s & S).
  rewrite (cleanup_passed self s W S). cbn [fst].
  unfold apply. cbn [snd]. rewrite R. cbn [JS.bind handler].
  eexists. split; [reflexivity |]. split; reflexivity.
Qed.

Lemma apply_after_cleanup_witness :
  exists st,
    snd (apply Sample.bare_compiler (fst (cleanup (this Sample.socket_state))))
    = JS.Normal (st, [NewSocket (socket_url (this Sample.socket_state))])
    /\ socket (this st)
       = Some {| url := socket_url (this Sample.socket_state); closed := false;
                 mode_once := true |}
    /\ scope st = {| local_handler := noop; timer := None;
                     nodeEnv := JS.Str "development" |}.
Proof.
  apply (apply_after_cleanup Sample.bare_compiler (this Sample.socket_state)
           (JS.Str "development")); reflexivity.
Defined.

(* ================================================================= *)
(** ** The timer across a run *)

(** X22: the elapsed time in a [progress] or a [failed] batch is measured
    from the most recent [compile]: after any run of hooks whose last
    [compile] came at clock [t], a [progress] at clock [now] reports its
    message followed by the label of [now - t], and a [failed] reports
    idle followed by that label. *)
Theorem timed_batches_from_last_compile
  (pre mid : list (Z * Signal)) (t now : Z) (st : State)
  (percent : Q) (msg : string) :
  (forall m, ~ In (m, compile) mid) ->
  snd (step now (Hook (progress percent msg))
         (fst (run_events (hooks (pre ++ (t, compile) :: mid)) st)))
  = [Call (local_handler (scope st))
       [entry "status" (Text "Compiling");
        entry "progress" (Num percent);
        entry "operations" (Text (msg ++ getTimeMessage now (Some t)))]]
  /\ snd (step now (Hook failed)
            (fst (run_events (hooks (pre ++ (t, compile) :: mid)) st)))
     = [Call (local_handler (scope st))
          [entry "status" (Text "Failed");
           entry "operations" (Text ("idle" ++ getTimeMessage now (Some t)))]].
Proof.
  intros H. cbn [step on_hook snd].
  rewrite run_hooks_scope. cbn [local_handler timer].
  rewrite (last_start_last _ pre mid t H). split; reflexivity.
Qed.

Lemma timed_batches_from_last_compile_witness :
  snd (step 1250 (Hook failed)
         (fst (run_events (hooks ([(10, compile)] ++ (1000, compile) :: [(1100, invalid)]))
                Sample.handler_state)))
  = [Call (user (UserFunction 0))
       [entry "status" (Text "Failed");
        entry "operations" (Text ("idle" ++ getTimeMessage 1250 (Some 1000)))]].
Proof.
  apply (proj2 (timed_batches_from_last_compile [(10, compile)] [(1100, invalid)]
                  1000 1250 Sample.handler_state 0 ""
                  (fun m I => match I with
                              | or_introl E => ltac:(discriminate E)
                              | or_intror F => match F with end
                              end))).
Defined.
